(** * Notebook diff view: layout of a diff element (diffElementViewModel.ts)

    A shallow embedding of [DiffElementViewModelBase] and its two concrete
    classes, [SideBySideDiffElementViewModel] and
    [SingleSideDiffElementViewModel], together with
    [getFormatedMetadataJSON].

    - A JavaScript [number] is an IEEE 754 binary64 value: [spec_float] of the
      Standard Library with precision 53 and maximal exponent 1024.  [+] is
      [SFadd], [!==] is the negation of [SFeqb] (so [NaN !== NaN] holds and
      [0 !== -0] does not).
    - The view model is a record; a method that mutates [this] or throws is a
      computation in the monad [M] (state of the view model, plus a thrown
      [Error]); a method that only reads is a function of [this].
    - An [Emitter] is modelled by the list of the events fired on it.
    - [hash], [JSON.stringify], [format] and [applyEdits] come from other
      files; they are the fields of the class [Collaborators], over which
      the model and its properties are stated. *)

From Stdlib Require Import ZArith List String Ascii Bool Sorted Permutation.
From Stdlib Require Import Floats.SpecFloat.
Import ListNotations.

Set Warnings "-register-all".

Local Open Scope string_scope.

(** ** JavaScript numbers *)

Definition number : Type := spec_float.

Module JSNumber.

Definition prec : Z := 53.
Definition emax : Z := 1024.

(** The number denoted by an integer literal of the source. *)
Definition of_Z (z : Z) : number := binary_normalize prec emax z 0 false.

Definition NaN : number := S754_nan.

(** [x + y] *)
Definition add (x y : number) : number := SFadd prec emax x y.

(** [x === y] and [x !== y] on numbers *)
Definition strict_eq (x y : number) : bool := SFeqb x y.
Definition strict_neq (x y : number) : bool := negb (strict_eq x y).

Definition is_nan (x : number) : bool :=
  match x with S754_nan => true | _ => false end.

Definition is_zero (x : number) : bool :=
  match x with S754_zero _ => true | _ => false end.

(** [Math.max(x, y)]: [NaN] when an argument is [NaN]; [+0] is larger
    than [-0]. *)
Definition max (x y : number) : number :=
  match SFcompare x y with
  | None => NaN
  | Some Lt => y
  | Some Gt => x
  | Some Eq =>
      match x, y with
      | S754_zero sx, S754_zero sy => S754_zero (sx && sy)
      | _, _ => x
      end
  end.

End JSNumber.

Infix "+'" := JSNumber.add (at level 50, left associativity).
Infix "!==" := JSNumber.strict_neq (at level 68, no associativity).

(** ** JavaScript values, objects as ordered property lists *)

Inductive any : Type :=
| JUndefined
| JNull
| JBoolean (b : bool)
| JNumber (n : number)
| JString (s : string)
| JArray (items : list any)
| JObject (props : list (string * any)).

(** An object: its own enumerable string-keyed properties, in the order
    in which JavaScript enumerates them: the array indices first, in
    ascending order, then the other keys in the order of their creation. *)
Definition JSObject : Type := list (string * any).

Module Obj.

(** [Object.keys(o)] *)
Definition keys (o : JSObject) : list string := map fst o.

(** [o[key]] for an own property *)
Fixpoint get (o : JSObject) (key : string) : any :=
  match o with
  | [] => JUndefined
  | (k, v) :: rest => if String.eqb k key then v else get rest key
  end.

Definition has (o : JSObject) (key : string) : bool :=
  existsb (String.eqb key) (keys o).

(** The value of a string of decimal digits. *)
Fixpoint digits_value (s : string) (acc : N) : option N :=
  match s with
  | EmptyString => Some acc
  | String c rest =>
      let n := nat_of_ascii c in
      if (48 <=? n)%nat && (n <=? 57)%nat
      then digits_value rest (acc * 10 + N.of_nat (n - 48))%N
      else None
  end.

(** The array index a key denotes: a canonical decimal numeral below
    2^32 - 1. *)
Definition array_index (key : string) : option N :=
  match key with
  | EmptyString => None
  | String c rest =>
      if Ascii.eqb c "0"%char
      then match rest with EmptyString => Some 0%N | _ => None end
      else
        match digits_value key 0%N with
        | Some n => if (n <=? 4294967294)%N then Some n else None
        | None => None
        end
  end.

(** A new key [key] is enumerated before the existing key [k]: both are
    array indices and [key] is the smaller, or only [key] is one. *)
Definition goes_before (key k : string) : bool :=
  match array_index key, array_index k with
  | Some n, Some n' => (n <? n')%N
  | Some _, None => true
  | None, _ => false
  end.

(** The value of an existing property changes; its place does not. *)
Fixpoint replace (o : JSObject) (key : string) (v : any) : JSObject :=
  match o with
  | [] => []
  | (k, w) :: rest =>
      if String.eqb k key then (k, v) :: rest else (k, w) :: replace rest key v
  end.

(** A new property takes its place in the enumeration order. *)
Fixpoint insert (o : JSObject) (key : string) (v : any) : JSObject :=
  match o with
  | [] => [(key, v)]
  | (k, w) :: rest =>
      if goes_before key k then (key, v) :: (k, w) :: rest
      else (k, w) :: insert rest key v
  end.

(** The own data property [key] is defined with value [v], as an object
    literal and a spread do. *)
Definition set (o : JSObject) (key : string) (v : any) : JSObject :=
  if has o key then replace o key v else insert o key v.

(** [o[key] = v] on a plain object: as [set], except that ["__proto__"],
    when it is not an own property, reaches the setter of
    [Object.prototype] and adds no property. *)
Definition assign (o : JSObject) (key : string) (v : any) : JSObject :=
  if String.eqb key "__proto__" && negb (has o key) then o else set o key v.

(** [{ ...target, ...source }]: the properties of [source] are assigned
    in order. *)
Definition spread (target source : JSObject) : JSObject :=
  fold_left (fun acc kv => set acc (fst kv) (snd kv)) source target.

(** [new Set(xs)], iterated: the first occurrence of each key, in
    order. *)
Definition Set_of (xs : list string) : list string :=
  fold_left
    (fun acc k => if existsb (String.eqb k) acc then acc else (acc ++ [k])%list)
    xs [].

End Obj.

(** ** Layout records (notebookDiffEditorBrowser) *)

Module IDiffElementLayoutInfo.
Record t : Type := mk {
  totalHeight : number;
  width : number;
  editorHeight : number;
  editorMargin : number;
  metadataHeight : number;
  metadataStatusHeight : number;
  rawOutputHeight : number;
  outputTotalHeight : number;
  outputStatusHeight : number;
  bodyMargin : number
}.
End IDiffElementLayoutInfo.

(** [ILayoutInfoDelta]: every key of the layout info, optional, and
    [recomputeOutput]. *)
Module ILayoutInfoDelta.
Record t : Type := mk {
  totalHeight : option number;
  width : option number;
  editorHeight : option number;
  editorMargin : option number;
  metadataHeight : option number;
  metadataStatusHeight : option number;
  rawOutputHeight : option number;
  outputTotalHeight : option number;
  outputStatusHeight : option number;
  bodyMargin : option number;
  recomputeOutput : option bool
}.

(** [{}] *)
Definition empty : t :=
  mk None None None None None None None None None None None.

(** The object literals this file passes to [_layout]. *)
Definition of_rawOutputHeight (height : number) : t :=
  mk None None None None None None (Some height) None None None None.
Definition of_outputStatusHeight (height : number) : t :=
  mk None None None None None None None None (Some height) None None.
Definition of_editorHeight (height : number) : t :=
  mk None None (Some height) None None None None None None None None.
Definition of_editorMargin (margin : number) : t :=
  mk None None None (Some margin) None None None None None None None.
Definition of_metadataHeight (height : number) : t :=
  mk None None None None (Some height) None None None None None None.
Definition of_recomputeOutput (recompute : bool) : t :=
  mk None None None None None None None None None None (Some recompute).
End ILayoutInfoDelta.

(** [CellDiffViewModelLayoutChangeEvent]: the flags this file sets.  A flag
    is absent ([None]) or present with a boolean. *)
Module CellDiffViewModelLayoutChangeEvent.
Record t : Type := mk {
  width : option bool;
  editorHeight : option bool;
  editorMargin : option bool;
  metadataHeight : option bool;
  metadataStatusHeight : option bool;
  outputTotalHeight : option bool;
  outputStatusHeight : option bool;
  bodyMargin : option bool;
  totalHeight : option bool;
  outerWidth : option bool
}.

(** [{}] *)
Definition empty : t :=
  mk None None None None None None None None None None.
End CellDiffViewModelLayoutChangeEvent.

Module LI := IDiffElementLayoutInfo.
Module Delta := ILayoutInfoDelta.
Module Ev := CellDiffViewModelLayoutChangeEvent.

(** ** Collaborators: the text model and the nested cell view models *)

Record TransientOptions : Type := {
  transientOutputs : bool;
  (** [transientMetadata[key]]; a key that is not listed reads [undefined] *)
  transientMetadata : list (string * bool)
}.

Record NotebookTextModel : Type := {
  transientOptions : TransientOptions
}.

Record DiffNestedCellViewModel : Type := {
  language : string;
  metadata : option JSObject;
  outputs : list any;
  (** the value [getOutputTotalHeight()] returns *)
  getOutputTotalHeight : number
}.

Inductive PropertyFoldingState : Type := Expanded | Collapsed.

Definition PropertyFoldingState_eqb (a b : PropertyFoldingState) : bool :=
  match a, b with
  | Expanded, Expanded | Collapsed, Collapsed => true
  | _, _ => false
  end.

Inductive SideBySideType : Type := unchanged | modified_.
Inductive SingleSideType : Type := insert | delete.

(** The concrete class of a diff element with its readonly [original],
    [modified] and [type].  A side-by-side element has both cells; a
    single-side element may lack either. *)
Inductive DiffElementClass : Type :=
| SideBySideDiffElementViewModel
    (original modified : DiffNestedCellViewModel) (type : SideBySideType)
| SingleSideDiffElementViewModel
    (original modified : option DiffNestedCellViewModel) (type : SingleSideType).

(** ** The view model *)

Record DiffElementViewModelBase : Type := mkBase {
  documentTextModel : NotebookTextModel;
  self : DiffElementClass;
  metadataFoldingState : PropertyFoldingState;
  outputFoldingState : PropertyFoldingState;
  _renderOutput : bool;
  _layoutInfo : LI.t;
  (** events fired on [_layoutInfoEmitter], oldest first *)
  _layoutInfoEmitter : list Ev.t;
  (** values of [renderOutput] fired on [_stateChangeEmitter], oldest first *)
  _stateChangeEmitter : list bool
}.

Definition with_metadataFoldingState (f : PropertyFoldingState)
  (this : DiffElementViewModelBase) : DiffElementViewModelBase :=
  mkBase (documentTextModel this) (self this) f (outputFoldingState this)
    (_renderOutput this) (_layoutInfo this) (_layoutInfoEmitter this)
    (_stateChangeEmitter this).

Definition with_outputFoldingState (f : PropertyFoldingState)
  (this : DiffElementViewModelBase) : DiffElementViewModelBase :=
  mkBase (documentTextModel this) (self this) (metadataFoldingState this) f
    (_renderOutput this) (_layoutInfo this) (_layoutInfoEmitter this)
    (_stateChangeEmitter this).

Definition with_renderOutput (b : bool)
  (this : DiffElementViewModelBase) : DiffElementViewModelBase :=
  mkBase (documentTextModel this) (self this) (metadataFoldingState this)
    (outputFoldingState this) b (_layoutInfo this) (_layoutInfoEmitter this)
    (_stateChangeEmitter this).

Definition with_layoutInfo (l : LI.t)
  (this : DiffElementViewModelBase) : DiffElementViewModelBase :=
  mkBase (documentTextModel this) (self this) (metadataFoldingState this)
    (outputFoldingState this) (_renderOutput this) l (_layoutInfoEmitter this)
    (_stateChangeEmitter this).

Definition fire_layoutInfo (e : Ev.t)
  (this : DiffElementViewModelBase) : DiffElementViewModelBase :=
  mkBase (documentTextModel this) (self this) (metadataFoldingState this)
    (outputFoldingState this) (_renderOutput this) (_layoutInfo this)
    (_layoutInfoEmitter this ++ [e])%list (_stateChangeEmitter this).

Definition fire_stateChange (b : bool)
  (this : DiffElementViewModelBase) : DiffElementViewModelBase :=
  mkBase (documentTextModel this) (self this) (metadataFoldingState this)
    (outputFoldingState this) (_renderOutput this) (_layoutInfo this)
    (_layoutInfoEmitter this) (_stateChangeEmitter this ++ [b])%list.

(** ** Methods as computations on [this] *)

Inductive Error : Type := mkError (message : string).

Inductive result (A : Type) : Type :=
| Ok (a : A)
| Throw (e : Error).
Arguments Ok {A} a.
Arguments Throw {A} e.

Definition M (A : Type) : Type :=
  DiffElementViewModelBase -> result A * DiffElementViewModelBase.

Definition ret {A} (a : A) : M A := fun this => (Ok a, this).

Definition bind {A B} (m : M A) (f : A -> M B) : M B :=
  fun this =>
    match m this with
    | (Ok a, this') => f a this'
    | (Throw e, this') => (Throw e, this')
    end.

Definition throw {A} (e : Error) : M A := fun this => (Throw e, this).
Definition read : M DiffElementViewModelBase := fun this => (Ok this, this).
Definition update (f : DiffElementViewModelBase -> DiffElementViewModelBase)
  : M unit := fun this => (Ok tt, f this).

Declare Scope method_scope.
Delimit Scope method_scope with method.
Notation "x <- m ;; k" := (bind m (fun x => k))
  (at level 100, m at next level, right associativity) : method_scope.
Notation "m ;; k" := (bind m (fun _ => k))
  (at level 100, right associativity) : method_scope.

(** The view model a computation leaves behind, and what it returns. *)
Definition after {A} (m : M A) (this : DiffElementViewModelBase)
  : DiffElementViewModelBase := snd (m this).
Definition returned {A} (m : M A) (this : DiffElementViewModelBase)
  : result A := fst (m this).

(** [v !== undefined ? v : old] *)
Definition or_previous {A} (v : option A) (old : A) : A :=
  match v with Some x => x | None => old end.

(** truthiness of an optional boolean *)
Definition truthy (b : option bool) : bool :=
  match b with Some true => true | _ => false end.

(** [if (c) { changeEvent.f = true; }] on a fresh [changeEvent] *)
Definition flag_if (c : bool) : option bool :=
  if c then Some true else None.

(** ** Collaborators from other files *)

(** [hash] of vs/base/common/hash (a hash value is a 32-bit integer),
    [JSON.stringify], [format(content, undefined, {})] of
    vs/base/common/jsonFormatter and [applyEdits] of
    vs/base/common/jsonEdit. *)
Class Collaborators : Type := {
  Edit : Type;
  hash : any -> Z;
  JSON_stringify : any -> string;
  format : string -> list Edit;
  applyEdits : string -> list Edit -> string
}.

Section DiffElementViewModel.

Context `{collab : Collaborators}.

(** *** getFormatedMetadataJSON *)

(** The names a plain object inherits from [Object.prototype]; each
    reads as a function or an object, which is truthy. *)
Definition Object_prototype_members : list string :=
  ["constructor"; "__defineGetter__"; "__defineSetter__"; "hasOwnProperty";
   "__lookupGetter__"; "__lookupSetter__"; "isPrototypeOf";
   "propertyIsEnumerable"; "toString"; "valueOf"; "__proto__";
   "toLocaleString"].

(** The own property [transientMetadata[key]], when there is one. *)
Definition own_transient (transientMetadata : list (string * bool))
  (key : string) : option bool :=
  match find (fun kv => String.eqb (fst kv) key) transientMetadata with
  | Some (_, b) => Some b
  | None => None
  end.

(** truthiness of [transientMetadata[key]], [transientMetadata] being a
    plain object: the own property when there is one, else what
    [Object.prototype] has under that name, else [undefined]. *)
Definition is_transient (transientMetadata : list (string * bool))
  (key : string) : bool :=
  match own_transient transientMetadata key with
  | Some b => b
  | None => existsb (String.eqb key) Object_prototype_members
  end.

(** The loop that fills [filteredMetadata] when there is a text model. *)
Definition filterMetadata (transientMetadata : list (string * bool))
  (metadata : JSObject) : JSObject :=
  let keys := Obj.Set_of (Obj.keys metadata) in
  fold_left
    (fun filteredMetadata key =>
       if negb (is_transient transientMetadata key)
       then Obj.assign filteredMetadata key (Obj.get metadata key)
       else filteredMetadata)
    keys [].

Definition language_value (language : option string) : any :=
  match language with Some l => JString l | None => JUndefined end.

Definition getFormatedMetadataJSON
  (documentTextModel : option NotebookTextModel) (metadata : JSObject)
  (language : option string) : string :=
  let filteredMetadata :=
    match documentTextModel with
    | Some doc =>
        filterMetadata (transientMetadata (transientOptions doc)) metadata
    | None => metadata
    end in
  let content :=
    JSON_stringify
      (JObject
         (Obj.spread [("language", language_value language)]
            filteredMetadata)) in
  let edits := format content in
  let metadataSource := applyEdits content edits in
  metadataSource.

(** [cell.metadata || {}] *)
Definition metadata_or_empty (cell : DiffNestedCellViewModel) : JSObject :=
  match metadata cell with Some m => m | None => [] end.

(** *** SideBySideDiffElementViewModel

    [original] and [modified] are defined here, so [this.original?.x] is
    [this.original.x]. *)

Definition SideBySide_checkIfOutputsModified (doc : NotebookTextModel)
  (original modified : DiffNestedCellViewModel) : bool :=
  negb (transientOutputs (transientOptions doc))
  && negb (Z.eqb (hash (JArray (outputs original)))
                 (hash (JArray (outputs modified)))).

Definition SideBySide_checkMetadataIfModified (doc : NotebookTextModel)
  (original modified : DiffNestedCellViewModel) : bool :=
  negb
    (Z.eqb
       (hash (JString (getFormatedMetadataJSON (Some doc)
                         (metadata_or_empty original)
                         (Some (language original)))))
       (hash (JString (getFormatedMetadataJSON (Some doc)
                         (metadata_or_empty modified)
                         (Some (language modified)))))).

Definition SideBySide_isOutputEmpty (doc : NotebookTextModel)
  (original modified : DiffNestedCellViewModel) : bool :=
  if transientOutputs (transientOptions doc) then true
  else if SideBySide_checkIfOutputsModified doc original modified then false
  else Nat.eqb (List.length (outputs original)) 0.

Definition SideBySide_getRichOutputTotalHeight
  (original modified : DiffNestedCellViewModel) : number :=
  JSNumber.max (getOutputTotalHeight original) (getOutputTotalHeight modified).

(** *** SingleSideDiffElementViewModel *)

(** [get cellViewModel] *)
Definition cellViewModel (original modified : option DiffNestedCellViewModel)
  (type : SingleSideType) : option DiffNestedCellViewModel :=
  match type with insert => modified | delete => original end.

Definition SingleSide_checkIfOutputsModified : bool := false.
Definition SingleSide_checkMetadataIfModified : bool := false.

Definition SingleSide_isOutputEmpty (doc : NotebookTextModel)
  (original modified : option DiffNestedCellViewModel) : bool :=
  if transientOutputs (transientOptions doc) then true
  else
    let outs :=
      match original with
      | Some o => outputs o
      | None => match modified with Some m => outputs m | None => [] end
      end in
    Nat.eqb (List.length outs) 0.

Definition SingleSide_getRichOutputTotalHeight
  (original modified : option DiffNestedCellViewModel)
  (type : SingleSideType) : number :=
  match cellViewModel original modified type with
  | Some cell => getOutputTotalHeight cell
  | None => JSNumber.of_Z 0
  end.

(** *** DiffElementViewModelBase: the abstract methods, by class *)

Definition checkIfOutputsModified (this : DiffElementViewModelBase) : bool :=
  match self this with
  | SideBySideDiffElementViewModel o m _ =>
      SideBySide_checkIfOutputsModified (documentTextModel this) o m
  | SingleSideDiffElementViewModel _ _ _ => SingleSide_checkIfOutputsModified
  end.

Definition checkMetadataIfModified (this : DiffElementViewModelBase) : bool :=
  match self this with
  | SideBySideDiffElementViewModel o m _ =>
      SideBySide_checkMetadataIfModified (documentTextModel this) o m
  | SingleSideDiffElementViewModel _ _ _ => SingleSide_checkMetadataIfModified
  end.

Definition isOutputEmpty (this : DiffElementViewModelBase) : bool :=
  match self this with
  | SideBySideDiffElementViewModel o m _ =>
      SideBySide_isOutputEmpty (documentTextModel this) o m
  | SingleSideDiffElementViewModel o m _ =>
      SingleSide_isOutputEmpty (documentTextModel this) o m
  end.

Definition getRichOutputTotalHeight (this : DiffElementViewModelBase)
  : number :=
  match self this with
  | SideBySideDiffElementViewModel o m _ =>
      SideBySide_getRichOutputTotalHeight o m
  | SingleSideDiffElementViewModel o m t =>
      SingleSide_getRichOutputTotalHeight o m t
  end.

(** *** DiffElementViewModelBase: layout *)

Local Open Scope method_scope.

(** [get renderOutput] and [get layoutInfo] *)
Definition renderOutput (this : DiffElementViewModelBase) : bool :=
  _renderOutput this.
Definition layoutInfo (this : DiffElementViewModelBase) : LI.t :=
  _layoutInfo this.

Definition _getOutputTotalHeight (this : DiffElementViewModelBase)
  (rawOutputHeight : number) : number :=
  if PropertyFoldingState_eqb (outputFoldingState this) Collapsed then
    JSNumber.of_Z 0
  else if renderOutput this then
    if isOutputEmpty this then JSNumber.of_Z 24
    else getRichOutputTotalHeight this
  else rawOutputHeight.

Definition _fireLayoutChangeEvent (state : Ev.t) : M unit :=
  update (fire_layoutInfo state).

(** The [newLayout] that [_layout] builds. *)
Definition newLayout_of (this : DiffElementViewModelBase) (delta : Delta.t)
  : LI.t :=
  let old := _layoutInfo this in
  let width := or_previous (Delta.width delta) (LI.width old) in
  let editorHeight :=
    or_previous (Delta.editorHeight delta) (LI.editorHeight old) in
  let editorMargin :=
    or_previous (Delta.editorMargin delta) (LI.editorMargin old) in
  let metadataHeight :=
    or_previous (Delta.metadataHeight delta) (LI.metadataHeight old) in
  let metadataStatusHeight :=
    or_previous (Delta.metadataStatusHeight delta)
      (LI.metadataStatusHeight old) in
  let rawOutputHeight :=
    or_previous (Delta.rawOutputHeight delta) (LI.rawOutputHeight old) in
  let outputStatusHeight :=
    or_previous (Delta.outputStatusHeight delta)
      (LI.outputStatusHeight old) in
  let bodyMargin := or_previous (Delta.bodyMargin delta) (LI.bodyMargin old) in
  let outputHeight :=
    if truthy (Delta.recomputeOutput delta)
       || (match Delta.rawOutputHeight delta with
           | Some _ => true
           | None => false
           end)
    then _getOutputTotalHeight this rawOutputHeight
    else LI.outputTotalHeight old in
  let totalHeight :=
    editorHeight +' editorMargin +' metadataHeight +' metadataStatusHeight
    +' outputHeight +' outputStatusHeight +' bodyMargin in
  {| LI.width := width;
     LI.editorHeight := editorHeight;
     LI.editorMargin := editorMargin;
     LI.metadataHeight := metadataHeight;
     LI.metadataStatusHeight := metadataStatusHeight;
     LI.outputTotalHeight := outputHeight;
     LI.outputStatusHeight := outputStatusHeight;
     LI.bodyMargin := bodyMargin;
     LI.rawOutputHeight := rawOutputHeight;
     LI.totalHeight := totalHeight |}.

(** The [changeEvent] that [_layout] builds from [newLayout] and the
    previous layout: one [if] per flag. *)
Definition changeEvent_of (newLayout old : LI.t) : Ev.t :=
  {| Ev.width := flag_if (LI.width newLayout !== LI.width old);
     Ev.editorHeight :=
       flag_if (LI.editorHeight newLayout !== LI.editorHeight old);
     Ev.editorMargin :=
       flag_if (LI.editorMargin newLayout !== LI.editorMargin old);
     Ev.metadataHeight :=
       flag_if (LI.metadataHeight newLayout !== LI.metadataHeight old);
     Ev.metadataStatusHeight :=
       flag_if (LI.metadataStatusHeight newLayout
                !== LI.metadataStatusHeight old);
     Ev.outputTotalHeight :=
       flag_if (LI.outputTotalHeight newLayout !== LI.outputTotalHeight old);
     Ev.outputStatusHeight :=
       flag_if (LI.outputStatusHeight newLayout
                !== LI.outputStatusHeight old);
     Ev.bodyMargin := flag_if (LI.bodyMargin newLayout !== LI.bodyMargin old);
     Ev.totalHeight :=
       flag_if (LI.totalHeight newLayout !== LI.totalHeight old);
     Ev.outerWidth := None |}.

Definition _layout (delta : Delta.t) : M unit :=
  this <- read ;;
  let newLayout := newLayout_of this delta in
  let changeEvent := changeEvent_of newLayout (_layoutInfo this) in
  update (with_layoutInfo newLayout) ;;
  _fireLayoutChangeEvent changeEvent.

Definition layoutChange : M unit :=
  _layout (Delta.of_recomputeOutput true).

(** *** DiffElementViewModelBase: accessors *)

Definition set_rawOutputHeight (height : number) : M unit :=
  _layout (Delta.of_rawOutputHeight height).

Definition get_rawOutputHeight : M number :=
  throw (mkError "Use Cell.layoutInfo.rawOutputHeight").

Definition set_outputStatusHeight (height : number) : M unit :=
  _layout (Delta.of_outputStatusHeight height).

Definition get_outputStatusHeight : M number :=
  throw (mkError "Use Cell.layoutInfo.outputStatusHeight").

Definition set_editorHeight (height : number) : M unit :=
  _layout (Delta.of_editorHeight height).

Definition get_editorHeight : M number :=
  throw (mkError "Use Cell.layoutInfo.editorHeight").

Definition set_editorMargin (margin : number) : M unit :=
  _layout (Delta.of_editorMargin margin).

Definition get_editorMargin : M number :=
  throw (mkError "Use Cell.layoutInfo.editorMargin").

Definition set_metadataHeight (height : number) : M unit :=
  _layout (Delta.of_metadataHeight height).

Definition get_metadataHeight : M number :=
  throw (mkError "Use Cell.layoutInfo.metadataHeight").

Definition set_renderOutput (value : bool) : M unit :=
  update (with_renderOutput value) ;;
  _layout (Delta.of_recomputeOutput true) ;;
  this <- read ;;
  update (fire_stateChange (_renderOutput this)).

(** The listener the constructor registers on
    [editorEventDispatcher.onDidChangeLayout]. *)
Definition on_editor_onDidChangeLayout : M unit :=
  update (fire_layoutInfo
            {| Ev.width := None; Ev.editorHeight := None;
               Ev.editorMargin := None; Ev.metadataHeight := None;
               Ev.metadataStatusHeight := None;
               Ev.outputTotalHeight := None;
               Ev.outputStatusHeight := None; Ev.bodyMargin := None;
               Ev.totalHeight := None; Ev.outerWidth := Some true |}).

(** The listener the concrete classes register on a cell's
    [onDidChangeOutputLayout]. *)
Definition on_cell_onDidChangeOutputLayout : M unit :=
  _layout (Delta.of_recomputeOutput true).

(** *** Constructors *)

Definition initialLayoutInfo : LI.t :=
  {| LI.width := JSNumber.of_Z 0;
     LI.editorHeight := JSNumber.of_Z 0;
     LI.editorMargin := JSNumber.of_Z 0;
     LI.metadataHeight := JSNumber.of_Z 0;
     LI.metadataStatusHeight := JSNumber.of_Z 25;
     LI.rawOutputHeight := JSNumber.of_Z 0;
     LI.outputTotalHeight := JSNumber.of_Z 0;
     LI.outputStatusHeight := JSNumber.of_Z 25;
     LI.bodyMargin := JSNumber.of_Z 32;
     LI.totalHeight := JSNumber.of_Z 82 |}.

Definition new_DiffElementViewModelBase (documentTextModel : NotebookTextModel)
  (self : DiffElementClass) : DiffElementViewModelBase :=
  {| documentTextModel := documentTextModel;
     self := self;
     metadataFoldingState := Collapsed;
     outputFoldingState := Collapsed;
     _renderOutput := false;
     _layoutInfo := initialLayoutInfo;
     _layoutInfoEmitter := [];
     _stateChangeEmitter := [] |}.

Definition new_SideBySideDiffElementViewModel
  (documentTextModel : NotebookTextModel)
  (original modified : DiffNestedCellViewModel) (type : SideBySideType)
  : DiffElementViewModelBase :=
  let this :=
    new_DiffElementViewModelBase documentTextModel
      (SideBySideDiffElementViewModel original modified type) in
  let this := with_metadataFoldingState Collapsed this in
  let this := with_outputFoldingState Collapsed this in
  let this :=
    if checkMetadataIfModified this
    then with_metadataFoldingState Expanded this else this in
  let this :=
    if checkIfOutputsModified this
    then with_outputFoldingState Expanded this else this in
  this.

(** [this.cellViewModel!.onDidChangeOutputLayout(...)] throws a TypeError
    when the cell of the element's side is undefined. *)
Definition new_SingleSideDiffElementViewModel
  (documentTextModel : NotebookTextModel)
  (original modified : option DiffNestedCellViewModel)
  (type : SingleSideType) : result DiffElementViewModelBase :=
  let this :=
    new_DiffElementViewModelBase documentTextModel
      (SingleSideDiffElementViewModel original modified type) in
  match cellViewModel original modified type with
  | Some _ => Ok this
  | None =>
      Throw (mkError "Cannot read properties of undefined")
  end.

(** *** Vocabulary of the properties *)

(** The sum that [totalHeight] has to equal, on the fields of one layout. *)
Definition sum_of_heights (l : LI.t) : number :=
  LI.editorHeight l +' LI.editorMargin l +' LI.metadataHeight l
  +' LI.metadataStatusHeight l +' LI.outputTotalHeight l
  +' LI.outputStatusHeight l +' LI.bodyMargin l.

Definition totalHeight_consistent (l : LI.t) : Prop :=
  LI.totalHeight l = sum_of_heights l.

(** A flag that is set tells a strict inequality; unless the new value is
    [NaN], the two values are different. *)
Definition flag_sound (flag : option bool) (new old : number) : Prop :=
  flag = Some true ->
  new !== old = true /\ (JSNumber.is_nan new = false -> new <> old).

(** A strict inequality sets the flag; two different values set it unless
    they are the two zeros. *)
Definition flag_complete (flag : option bool) (new old : number) : Prop :=
  (new !== old = true -> flag = Some true)
  /\ (new <> old ->
      flag = Some true
      \/ (JSNumber.is_zero new = true /\ JSNumber.is_zero old = true)).

(** Every flag of an event, against the two layouts it compares. *)
Definition every_flag (P : option bool -> number -> number -> Prop)
  (e : Ev.t) (new old : LI.t) : Prop :=
  P (Ev.width e) (LI.width new) (LI.width old)
  /\ P (Ev.editorHeight e) (LI.editorHeight new) (LI.editorHeight old)
  /\ P (Ev.editorMargin e) (LI.editorMargin new) (LI.editorMargin old)
  /\ P (Ev.metadataHeight e) (LI.metadataHeight new) (LI.metadataHeight old)
  /\ P (Ev.metadataStatusHeight e) (LI.metadataStatusHeight new)
       (LI.metadataStatusHeight old)
  /\ P (Ev.outputTotalHeight e) (LI.outputTotalHeight new)
       (LI.outputTotalHeight old)
  /\ P (Ev.outputStatusHeight e) (LI.outputStatusHeight new)
       (LI.outputStatusHeight old)
  /\ P (Ev.bodyMargin e) (LI.bodyMargin new) (LI.bodyMargin old)
  /\ P (Ev.totalHeight e) (LI.totalHeight new) (LI.totalHeight old).

(** [recomputeOutput] is set, or [rawOutputHeight] is defined. *)
Definition recomputes_output (delta : Delta.t) : bool :=
  truthy (Delta.recomputeOutput delta)
  || match Delta.rawOutputHeight delta with Some _ => true | None => false end.

(** The flag tells that the two values are different. *)
Definition flag_differs (flag : option bool) (new old : number) : Prop :=
  flag = Some true -> new <> old.

(** A key is marked transient: [transientMetadata] lists it as true. *)
Definition marked_transient (transientMetadata : list (string * bool))
  (key : string) : bool :=
  match own_transient transientMetadata key with
  | Some b => b
  | None => false
  end.

(** The metadata without the keys marked transient. *)
Definition without_marked (transientMetadata : list (string * bool))
  (metadata : JSObject) : JSObject :=
  filter (fun kv => negb (marked_transient transientMetadata (fst kv)))
    metadata.

(** The filter keeps a key: it does not read truthy in
    [transientMetadata], and it is not ["__proto__"]. *)
Definition is_kept (transientMetadata : list (string * bool))
  (key : string) : bool :=
  negb (is_transient transientMetadata key)
  && negb (String.eqb key "__proto__").

(** The metadata properties that the filter keeps. *)
Definition without_transient (transientMetadata : list (string * bool))
  (metadata : JSObject) : JSObject :=
  filter (fun kv => is_kept transientMetadata (fst kv)) metadata.

(** The properties are listed in enumeration order: none of them would be
    enumerated before one that precedes it. *)
Definition enumeration_order (o : JSObject) : Prop :=
  StronglySorted (fun a b => Obj.goes_before (fst b) (fst a) = false) o.

(** An object has each of its keys once, in enumeration order. *)
Definition well_formed (o : JSObject) : Prop :=
  NoDup (Obj.keys o) /\ enumeration_order o.

(** Two objects have the same properties, whatever their order. *)
Definition same_properties (o1 o2 : JSObject) : Prop := Permutation o1 o2.

(** *** getNestedCellViewModel *)

Inductive DiffSide : Type := Original | Modified.

Definition SideBySide_getNestedCellViewModel (diffSide : DiffSide)
  : M (option DiffNestedCellViewModel) :=
  throw (mkError "Method not implemented.").

(** [this.type === 'insert' ? this.modified! : this.original!]; the
    result is [undefined] ([None]) when that cell is missing. *)
Definition SingleSide_getNestedCellViewModel
  (original modified : option DiffNestedCellViewModel) (type : SingleSideType)
  (diffSide : DiffSide) : M (option DiffNestedCellViewModel) :=
  ret (match type with insert => modified | delete => original end).

Definition getNestedCellViewModel (diffSide : DiffSide)
  : M (option DiffNestedCellViewModel) :=
  this <- read ;;
  match self this with
  | SideBySideDiffElementViewModel _ _ _ =>
      SideBySide_getNestedCellViewModel diffSide
  | SingleSideDiffElementViewModel o m t =>
      SingleSide_getNestedCellViewModel o m t diffSide
  end.

(** *** Sequences of calls on one view model *)

(** The calls this file offers on a view model: the setters, [layoutChange],
    [_layout] itself (for the subclasses), and the three listeners. *)
Inductive Call : Type :=
| Set_rawOutputHeight (height : number)
| Set_outputStatusHeight (height : number)
| Set_editorHeight (height : number)
| Set_editorMargin (margin : number)
| Set_metadataHeight (height : number)
| Set_renderOutput (value : bool)
| Call_layoutChange
| Call_layout (delta : Delta.t)
| Fire_editor_onDidChangeLayout
| Fire_cell_onDidChangeOutputLayout.

Definition perform (c : Call) : M unit :=
  match c with
  | Set_rawOutputHeight height => set_rawOutputHeight height
  | Set_outputStatusHeight height => set_outputStatusHeight height
  | Set_editorHeight height => set_editorHeight height
  | Set_editorMargin margin => set_editorMargin margin
  | Set_metadataHeight height => set_metadataHeight height
  | Set_renderOutput value => set_renderOutput value
  | Call_layoutChange => layoutChange
  | Call_layout delta => _layout delta
  | Fire_editor_onDidChangeLayout => on_editor_onDidChangeLayout
  | Fire_cell_onDidChangeOutputLayout => on_cell_onDidChangeOutputLayout
  end.

Fixpoint perform_all (cs : list Call) : M unit :=
  match cs with
  | [] => ret tt
  | c :: rest => perform c ;; perform_all rest
  end.

(** The values given to the [renderOutput] setter, in call order. *)
Fixpoint renderOutput_values (cs : list Call) : list bool :=
  match cs with
  | [] => []
  | Set_renderOutput value :: rest => value :: renderOutput_values rest
  | _ :: rest => renderOutput_values rest
  end.

(** *** Vocabulary of the further properties *)

(** [newLayout_of] with the output height function and the previous layout
    taken apart from [this]. *)
Definition next_layout (outputTotalHeight_of : number -> number) (old : LI.t)
  (delta : Delta.t) : LI.t :=
  let width := or_previous (Delta.width delta) (LI.width old) in
  let editorHeight :=
    or_previous (Delta.editorHeight delta) (LI.editorHeight old) in
  let editorMargin :=
    or_previous (Delta.editorMargin delta) (LI.editorMargin old) in
  let metadataHeight :=
    or_previous (Delta.metadataHeight delta) (LI.metadataHeight old) in
  let metadataStatusHeight :=
    or_previous (Delta.metadataStatusHeight delta)
      (LI.metadataStatusHeight old) in
  let rawOutputHeight :=
    or_previous (Delta.rawOutputHeight delta) (LI.rawOutputHeight old) in
  let outputStatusHeight :=
    or_previous (Delta.outputStatusHeight delta)
      (LI.outputStatusHeight old) in
  let bodyMargin := or_previous (Delta.bodyMargin delta) (LI.bodyMargin old) in
  let outputHeight :=
    if recomputes_output delta
    then outputTotalHeight_of rawOutputHeight
    else LI.outputTotalHeight old in
  {| LI.width := width;
     LI.editorHeight := editorHeight;
     LI.editorMargin := editorMargin;
     LI.metadataHeight := metadataHeight;
     LI.metadataStatusHeight := metadataStatusHeight;
     LI.outputTotalHeight := outputHeight;
     LI.outputStatusHeight := outputStatusHeight;
     LI.bodyMargin := bodyMargin;
     LI.rawOutputHeight := rawOutputHeight;
     LI.totalHeight :=
       editorHeight +' editorMargin +' metadataHeight +' metadataStatusHeight
       +' outputHeight +' outputStatusHeight +' bodyMargin |}.

(** [b !== undefined ? b : a] on optional fields *)
Definition later_field {A} (a b : option A) : option A :=
  match b with Some _ => b | None => a end.

(** The delta that carries the fields of [d1] and of [d2], those of [d2]
    winning, and asks to recompute the output when either does. *)
Definition merge_delta (d1 d2 : Delta.t) : Delta.t :=
  {| Delta.totalHeight :=
       later_field (Delta.totalHeight d1) (Delta.totalHeight d2);
     Delta.width := later_field (Delta.width d1) (Delta.width d2);
     Delta.editorHeight :=
       later_field (Delta.editorHeight d1) (Delta.editorHeight d2);
     Delta.editorMargin :=
       later_field (Delta.editorMargin d1) (Delta.editorMargin d2);
     Delta.metadataHeight :=
       later_field (Delta.metadataHeight d1) (Delta.metadataHeight d2);
     Delta.metadataStatusHeight :=
       later_field (Delta.metadataStatusHeight d1)
         (Delta.metadataStatusHeight d2);
     Delta.rawOutputHeight :=
       later_field (Delta.rawOutputHeight d1) (Delta.rawOutputHeight d2);
     Delta.outputTotalHeight :=
       later_field (Delta.outputTotalHeight d1) (Delta.outputTotalHeight d2);
     Delta.outputStatusHeight :=
       later_field (Delta.outputStatusHeight d1) (Delta.outputStatusHeight d2);
     Delta.bodyMargin := later_field (Delta.bodyMargin d1) (Delta.bodyMargin d2);
     Delta.recomputeOutput :=
       Some (truthy (Delta.recomputeOutput d1)
             || truthy (Delta.recomputeOutput d2)) |}.

Definition defined {A} (a : option A) : bool :=
  match a with Some _ => true | None => false end.

(** No layout field is defined in both deltas. *)
Definition disjoint_deltas (d1 d2 : Delta.t) : bool :=
  negb (defined (Delta.width d1) && defined (Delta.width d2))
  && negb (defined (Delta.editorHeight d1) && defined (Delta.editorHeight d2))
  && negb (defined (Delta.editorMargin d1) && defined (Delta.editorMargin d2))
  && negb (defined (Delta.metadataHeight d1)
           && defined (Delta.metadataHeight d2))
  && negb (defined (Delta.metadataStatusHeight d1)
           && defined (Delta.metadataStatusHeight d2))
  && negb (defined (Delta.rawOutputHeight d1)
           && defined (Delta.rawOutputHeight d2))
  && negb (defined (Delta.outputStatusHeight d1)
           && defined (Delta.outputStatusHeight d2))
  && negb (defined (Delta.bodyMargin d1) && defined (Delta.bodyMargin d2)).

(** None of the nine compared fields of a layout is [NaN]. *)
Definition no_NaN (l : LI.t) : bool :=
  negb (JSNumber.is_nan (LI.width l))
  && negb (JSNumber.is_nan (LI.editorHeight l))
  && negb (JSNumber.is_nan (LI.editorMargin l))
  && negb (JSNumber.is_nan (LI.metadataHeight l))
  && negb (JSNumber.is_nan (LI.metadataStatusHeight l))
  && negb (JSNumber.is_nan (LI.outputTotalHeight l))
  && negb (JSNumber.is_nan (LI.outputStatusHeight l))
  && negb (JSNumber.is_nan (LI.bodyMargin l))
  && negb (JSNumber.is_nan (LI.totalHeight l)).

(** The output section is folded and takes no height. *)
Definition folded_with_no_height (this : DiffElementViewModelBase) : Prop :=
  outputFoldingState this = Collapsed
  /\ LI.outputTotalHeight (layoutInfo this) = JSNumber.of_Z 0.

(** [this] is a new single-side element around [cell]: both sections are
    folded, [getNestedCellViewModel] returns [cell] for either side, the
    rich output height is that of [cell], and no sequence of calls gives
    the output section a height. *)
Definition single_side_element_of (cell : DiffNestedCellViewModel)
  (this : DiffElementViewModelBase) : Prop :=
  metadataFoldingState this = Collapsed
  /\ outputFoldingState this = Collapsed
  /\ (forall diffSide,
        getNestedCellViewModel diffSide this = (Ok (Some cell), this))
  /\ getRichOutputTotalHeight this = getOutputTotalHeight cell
  /\ (forall cs,
        LI.outputTotalHeight (layoutInfo (after (perform_all cs) this))
        = JSNumber.of_Z 0).

(** [x <= y] on numbers *)
Definition number_le (x y : number) : bool := SFleb x y.

End DiffElementViewModel.

(** ** Sample collaborators and view models, to run the model *)

Definition sample_string_hash (s : string) : Z :=
  fold_left
    (fun h c => ((h * 31 + Z.of_nat (Ascii.nat_of_ascii c)) mod 4294967296)%Z)
    (list_ascii_of_string s) 0%Z.

Definition sample_hash (v : any) : Z :=
  match v with
  | JString s => sample_string_hash s
  | JArray items => Z.of_nat (List.length items)
  | _ => 0%Z
  end.

Definition sample_render (v : any) : string :=
  match v with
  | JString s => s
  | JBoolean true => "true"
  | JBoolean false => "false"
  | JNull => "null"
  | _ => "?"
  end.

Definition sample_stringify (v : any) : string :=
  match v with
  | JObject props =>
      String.concat ","
        (map (fun kv => fst kv ++ ":" ++ sample_render (snd kv)) props)
  | other => sample_render other
  end.

Definition sample_collaborators : Collaborators :=
  {| Edit := unit;
     hash := sample_hash;
     JSON_stringify := sample_stringify;
     format := fun _ => [];
     applyEdits := fun content _ => content |}.

Definition sample_doc : NotebookTextModel :=
  {| transientOptions :=
       {| transientOutputs := false;
          transientMetadata := [("executionOrder", true)] |} |}.

Definition sample_original : DiffNestedCellViewModel :=
  {| language := "python";
     metadata := Some [("editable", JBoolean true);
                       ("executionOrder", JString "1")];
     outputs := [JString "42"];
     getOutputTotalHeight := JSNumber.of_Z 40 |}.

Definition sample_modified : DiffNestedCellViewModel :=
  {| language := "python";
     metadata := Some [("editable", JBoolean true);
                       ("executionOrder", JString "2")];
     outputs := [JString "42"];
     getOutputTotalHeight := JSNumber.of_Z 60 |}.

Definition sample_side_by_side : DiffElementViewModelBase :=
  new_SideBySideDiffElementViewModel (collab := sample_collaborators)
    sample_doc sample_original sample_modified unchanged.

Definition sample_swapped : DiffElementViewModelBase :=
  with_metadataFoldingState Expanded
    (new_SideBySideDiffElementViewModel (collab := sample_collaborators)
       sample_doc sample_modified sample_original modified_).

Definition sample_single_side : DiffElementViewModelBase :=
  new_DiffElementViewModelBase sample_doc
    (SingleSideDiffElementViewModel None (Some sample_modified) insert).

Definition sample_rendered (this : DiffElementViewModelBase)
  : DiffElementViewModelBase :=
  with_renderOutput true (with_outputFoldingState Expanded this).

Definition sample_delta : Delta.t :=
  {| Delta.totalHeight := None; Delta.width := Some (JSNumber.of_Z 640);
     Delta.editorHeight := None; Delta.editorMargin := None;
     Delta.metadataHeight := None; Delta.metadataStatusHeight := None;
     Delta.rawOutputHeight := None; Delta.outputTotalHeight := None;
     Delta.outputStatusHeight := None; Delta.bodyMargin := None;
     Delta.recomputeOutput := Some true |}.

(** [editorHeight = NaN] on a fresh side-by-side element *)
Definition sample_nan_height : DiffElementViewModelBase :=
  after (set_editorHeight (collab := sample_collaborators) JSNumber.NaN)
    sample_side_by_side.

(** Two cells with the same language and the same two metadata
    properties, created in opposite orders. *)
Definition sample_editable_first : DiffNestedCellViewModel :=
  {| language := "python";
     metadata := Some [("editable", JBoolean true);
                       ("inputCollapsed", JBoolean false)];
     outputs := [JString "42"];
     getOutputTotalHeight := JSNumber.of_Z 40 |}.

Definition sample_editable_last : DiffNestedCellViewModel :=
  {| language := "python";
     metadata := Some [("inputCollapsed", JBoolean false);
                       ("editable", JBoolean true)];
     outputs := [JString "42"];
     getOutputTotalHeight := JSNumber.of_Z 40 |}.

(** Metadata with keys that every plain object inherits a value for. *)
Definition sample_inherited_names : JSObject :=
  [("constructor", JString "c"); ("toString", JString "s");
   ("editable", JBoolean true)].

Definition sample_calls : list Call :=
  [Set_rawOutputHeight (JSNumber.of_Z 5); Set_renderOutput true;
   Set_editorHeight (JSNumber.of_Z 120); Fire_editor_onDidChangeLayout;
   Call_layoutChange; Set_renderOutput false].

Section Properties.

Context `{collab : Collaborators}.

Local Open Scope method_scope.

(** *** Strict comparison of numbers *)

Lemma strict_neq_irrefl (x : number) :
  JSNumber.is_nan x = false -> x !== x = false.
Proof.
  unfold JSNumber.strict_neq, JSNumber.strict_eq, SFeqb.
  destruct x as [s | s | | s m e]; simpl; try discriminate;
    intros _; destruct s; try reflexivity;
    rewrite Z.compare_refl, Pos.compare_cont_refl; reflexivity.
Qed.

Lemma strict_neq_nan (x : number) :
  JSNumber.is_nan x = true -> x !== x = true.
Proof. destruct x; simpl; try discriminate; reflexivity. Qed.

Lemma cont_Eq_eq (m1 m2 : positive) :
  Pos.compare_cont Eq m1 m2 = Eq -> m1 = m2.
Proof. apply Pos.compare_eq. Qed.

(** [x === y] identifies equal numbers, and the two zeros. *)
Lemma strict_eq_cases (x y : number) :
  JSNumber.strict_eq x y = true ->
  x = y \/ (JSNumber.is_zero x = true /\ JSNumber.is_zero y = true).
Proof.
  unfold JSNumber.strict_eq, SFeqb.
  destruct x as [sx | sx | | sx mx ex], y as [sy | sy | | sy my ey];
    simpl; try discriminate; try (destruct sx; discriminate);
    try (destruct sy; discriminate).
  - intros _; right; split; reflexivity.
  - destruct sx, sy; try discriminate; intros _; left; reflexivity.
  - destruct sx, sy; try discriminate;
      destruct (Z.compare ex ey) eqn:He; try discriminate;
      apply Z.compare_eq in He; subst ey;
      destruct (Pos.compare_cont Eq mx my) eqn:Hm; try discriminate;
      apply cont_Eq_eq in Hm; subst my; intros _; left; reflexivity.
Qed.

Lemma strict_neq_true_neq (x y : number) :
  x !== y = true -> JSNumber.is_nan x = false -> x <> y.
Proof.
  intros Hneq Hnan Heq. subst y.
  rewrite (strict_neq_irrefl x Hnan) in Hneq. discriminate.
Qed.

Lemma neq_strict_neq (x y : number) :
  x <> y ->
  x !== y = true \/ (JSNumber.is_zero x = true /\ JSNumber.is_zero y = true).
Proof.
  intros Hneq. unfold JSNumber.strict_neq.
  destruct (JSNumber.strict_eq x y) eqn:E.
  - destruct (strict_eq_cases x y E) as [-> | Hz]; [contradiction | right; exact Hz].
  - left; reflexivity.
Qed.

Lemma flag_if_true (c : bool) : flag_if c = Some true <-> c = true.
Proof. destruct c; simpl; split; congruence. Qed.

(** *** What one call of [_layout] does *)

Lemma _layout_run (delta : Delta.t) (this : DiffElementViewModelBase) :
  _layout delta this =
  (Ok tt,
   fire_layoutInfo
     (changeEvent_of (newLayout_of this delta) (_layoutInfo this))
     (with_layoutInfo (newLayout_of this delta) this)).
Proof. reflexivity. Qed.

Lemma _layout_layoutInfo (delta : Delta.t) (this : DiffElementViewModelBase) :
  layoutInfo (after (_layout delta) this) = newLayout_of this delta.
Proof. reflexivity. Qed.

Lemma _layout_fires (delta : Delta.t) (this : DiffElementViewModelBase) :
  _layoutInfoEmitter (after (_layout delta) this) =
  (_layoutInfoEmitter this
   ++ [changeEvent_of (newLayout_of this delta) (_layoutInfo this)])%list.
Proof. reflexivity. Qed.

(** C1. In the layout a constructor installs, and in the layout that any
    call of [_layout] leaves (from any state, with any delta),
    [totalHeight] is [editorHeight + editorMargin + metadataHeight +
    metadataStatusHeight + outputTotalHeight + outputStatusHeight +
    bodyMargin] of that same layout.  [_layout] always returns. *)
Theorem totalHeight_is_sum_of_heights :
  (forall doc cls,
      totalHeight_consistent
        (layoutInfo (new_DiffElementViewModelBase doc cls)))
  /\ (forall doc o m t,
        totalHeight_consistent
          (layoutInfo (new_SideBySideDiffElementViewModel doc o m t)))
  /\ (forall doc o m t,
        match new_SingleSideDiffElementViewModel doc o m t with
        | Ok this => totalHeight_consistent (layoutInfo this)
        | Throw _ => True
        end)
  /\ (forall this delta,
        returned (_layout delta) this = Ok tt
        /\ totalHeight_consistent (layoutInfo (after (_layout delta) this))).
Proof.
  assert (Hinit : totalHeight_consistent initialLayoutInfo)
    by (vm_compute; reflexivity).
  split; [| split; [| split]].
  - intros doc cls. exact Hinit.
  - intros doc o m t. unfold new_SideBySideDiffElementViewModel.
    cbv zeta.
    destruct (checkMetadataIfModified _); destruct (checkIfOutputsModified _);
      exact Hinit.
  - intros doc o m t. unfold new_SingleSideDiffElementViewModel.
    destruct (cellViewModel o m t); [exact Hinit | exact I].
  - intros this delta. split; reflexivity.
Qed.

(** *** The change event *)

Lemma flag_if_sound (new old : number) :
  flag_sound (flag_if (new !== old)) new old.
Proof.
  intros H. apply flag_if_true in H. split; [exact H |].
  intros Hnan. exact (strict_neq_true_neq new old H Hnan).
Qed.

Lemma flag_if_complete (new old : number) :
  flag_complete (flag_if (new !== old)) new old.
Proof.
  split.
  - intros H. apply flag_if_true. exact H.
  - intros H. destruct (neq_strict_neq new old H) as [Hs | Hz].
    + left. apply flag_if_true. exact Hs.
    + right. exact Hz.
Qed.

Lemma changeEvent_of_every_flag
  (P : option bool -> number -> number -> Prop) :
  (forall new old, P (flag_if (new !== old)) new old) ->
  forall new old, every_flag P (changeEvent_of new old) new old.
Proof.
  intros HP new old. unfold every_flag, changeEvent_of; simpl.
  repeat split; apply HP.
Qed.

(** C2, amended.  One call of [_layout] fires exactly one event, and every
    flag set in it (width, editorHeight, editorMargin, metadataHeight,
    metadataStatusHeight, outputTotalHeight, outputStatusHeight,
    bodyMargin, totalHeight) belongs to a field whose new value is [!==]
    to its previous value; when the new value is not [NaN] the two values
    are different. *)
Theorem flagged_fields_are_strictly_unequal :
  forall this delta,
  exists e,
    _layoutInfoEmitter (after (_layout delta) this)
    = (_layoutInfoEmitter this ++ [e])%list
    /\ every_flag flag_sound e
         (layoutInfo (after (_layout delta) this)) (layoutInfo this).
Proof.
  intros this delta.
  exists (changeEvent_of (newLayout_of this delta) (_layoutInfo this)).
  split; [apply _layout_fires |].
  rewrite _layout_layoutInfo.
  apply changeEvent_of_every_flag. exact flag_if_sound.
Qed.

(** C3, amended.  One call of [_layout] fires exactly one event, and every
    field other than [rawOutputHeight] whose new value is [!==] to its
    previous value is flagged in it; two different values are flagged
    unless they are the two zeros. *)
Theorem strictly_unequal_fields_are_flagged :
  forall this delta,
  exists e,
    _layoutInfoEmitter (after (_layout delta) this)
    = (_layoutInfoEmitter this ++ [e])%list
    /\ every_flag flag_complete e
         (layoutInfo (after (_layout delta) this)) (layoutInfo this).
Proof.
  intros this delta.
  exists (changeEvent_of (newLayout_of this delta) (_layoutInfo this)).
  split; [apply _layout_fires |].
  rewrite _layout_layoutInfo.
  apply changeEvent_of_every_flag. exact flag_if_complete.
Qed.

(** *** Frame *)

(** C4. A field that is undefined in the delta keeps its value, and
    [outputTotalHeight] keeps its value when the delta neither sets
    [recomputeOutput] nor defines [rawOutputHeight]. *)
Theorem undefined_fields_keep_their_value :
  forall this delta,
    let new := layoutInfo (after (_layout delta) this) in
    let old := layoutInfo this in
    (Delta.width delta = None -> LI.width new = LI.width old)
    /\ (Delta.editorHeight delta = None ->
        LI.editorHeight new = LI.editorHeight old)
    /\ (Delta.editorMargin delta = None ->
        LI.editorMargin new = LI.editorMargin old)
    /\ (Delta.metadataHeight delta = None ->
        LI.metadataHeight new = LI.metadataHeight old)
    /\ (Delta.metadataStatusHeight delta = None ->
        LI.metadataStatusHeight new = LI.metadataStatusHeight old)
    /\ (Delta.rawOutputHeight delta = None ->
        LI.rawOutputHeight new = LI.rawOutputHeight old)
    /\ (Delta.outputStatusHeight delta = None ->
        LI.outputStatusHeight new = LI.outputStatusHeight old)
    /\ (Delta.bodyMargin delta = None ->
        LI.bodyMargin new = LI.bodyMargin old)
    /\ (recomputes_output delta = false ->
        LI.outputTotalHeight new = LI.outputTotalHeight old).
Proof.
  intros this delta new old. subst new old.
  rewrite _layout_layoutInfo. unfold newLayout_of, layoutInfo; simpl.
  repeat match goal with |- _ /\ _ => split end;
    intros H; try (rewrite H; reflexivity).
  unfold recomputes_output in H. rewrite H. reflexivity.
Qed.

(** *** Output height *)

(** C8. With the output folded ([Collapsed]), a call of [_layout] that
    recomputes the output height sets [outputTotalHeight] to 0. *)
Theorem collapsed_output_has_height_zero :
  forall this delta,
    outputFoldingState this = Collapsed ->
    recomputes_output delta = true ->
    LI.outputTotalHeight (layoutInfo (after (_layout delta) this))
    = JSNumber.of_Z 0.
Proof.
  intros this delta Hfold Hrec.
  rewrite _layout_layoutInfo. unfold newLayout_of; simpl.
  unfold recomputes_output in Hrec. rewrite Hrec.
  unfold _getOutputTotalHeight. rewrite Hfold. reflexivity.
Qed.

(** C7. [_layout] depends on [this] only through [layoutInfo],
    [outputFoldingState], [renderOutput], [isOutputEmpty()] and
    [getRichOutputTotalHeight()]: two view models that agree on these
    and receive the same delta end with the same layout and fire the
    same event. *)
Theorem _layout_deterministic :
  forall this1 this2 delta,
    layoutInfo this1 = layoutInfo this2 ->
    outputFoldingState this1 = outputFoldingState this2 ->
    renderOutput this1 = renderOutput this2 ->
    isOutputEmpty this1 = isOutputEmpty this2 ->
    getRichOutputTotalHeight this1 = getRichOutputTotalHeight this2 ->
    returned (_layout delta) this1 = returned (_layout delta) this2
    /\ layoutInfo (after (_layout delta) this1)
       = layoutInfo (after (_layout delta) this2)
    /\ exists e,
         _layoutInfoEmitter (after (_layout delta) this1)
         = (_layoutInfoEmitter this1 ++ [e])%list
         /\ _layoutInfoEmitter (after (_layout delta) this2)
            = (_layoutInfoEmitter this2 ++ [e])%list.
Proof.
  intros this1 this2 delta Hl Hf Hr He Hh.
  assert (Hout : forall raw,
             _getOutputTotalHeight this1 raw = _getOutputTotalHeight this2 raw).
  { intros raw. unfold _getOutputTotalHeight. rewrite Hf, Hr, He, Hh.
    reflexivity. }
  assert (Hnew : newLayout_of this1 delta = newLayout_of this2 delta).
  { unfold newLayout_of. unfold layoutInfo in Hl. rewrite Hl, Hout.
    reflexivity. }
  split; [reflexivity |]. split.
  - rewrite !_layout_layoutInfo. exact Hnew.
  - exists (changeEvent_of (newLayout_of this1 delta) (_layoutInfo this1)).
    split; [apply _layout_fires |].
    rewrite _layout_fires, Hnew. unfold layoutInfo in Hl. rewrite Hl.
    reflexivity.
Qed.

(** *** What counts as modified *)

(** C5. A side-by-side element reports no output change when outputs are
    transient, and none when the two cells have equal outputs; so a
    reported change means outputs that are not transient and differ. *)
Theorem checkIfOutputsModified_false :
  forall this original modified type,
    self this = SideBySideDiffElementViewModel original modified type ->
    (transientOutputs (transientOptions (documentTextModel this)) = true ->
     checkIfOutputsModified this = false)
    /\ (outputs original = outputs modified ->
        checkIfOutputsModified this = false)
    /\ (checkIfOutputsModified this = true ->
        transientOutputs (transientOptions (documentTextModel this)) = false
        /\ outputs original <> outputs modified).
Proof.
  intros this o m t Hself.
  unfold checkIfOutputsModified, SideBySide_checkIfOutputsModified.
  rewrite Hself.
  split; [| split].
  - intros Htr. rewrite Htr. reflexivity.
  - intros Hout. rewrite Hout, Z.eqb_refl. apply andb_false_r.
  - intros Hmod. apply andb_true_iff in Hmod. destruct Hmod as [Htr Hne].
    split.
    + apply negb_true_iff. exact Htr.
    + intros Hout. rewrite Hout, Z.eqb_refl in Hne. discriminate.
Qed.

(** The loop of [getFormatedMetadataJSON] removes the transient keys and
    keeps the other properties in their order. *)

Lemma existsb_eqb_fresh (k : string) (ks : list string) :
  ~ In k ks -> existsb (String.eqb k) ks = false.
Proof.
  induction ks as [| k' ks IH]; simpl; intros Hnotin; [reflexivity |].
  destruct (String.eqb_spec k k') as [-> | _].
  - exfalso. apply Hnotin. left. reflexivity.
  - apply IH. intros Hin. apply Hnotin. right. exact Hin.
Qed.

Lemma Set_of_from (xs acc : list string) :
  NoDup (acc ++ xs)%list ->
  fold_left
    (fun acc k => if existsb (String.eqb k) acc then acc else (acc ++ [k])%list)
    xs acc
  = (acc ++ xs)%list.
Proof.
  revert acc. induction xs as [| x xs IH]; intros acc Hnd; simpl.
  - symmetry. apply app_nil_r.
  - assert (Hfresh : ~ In x acc).
    { apply NoDup_remove_2 in Hnd. intros Hin. apply Hnd.
      apply in_or_app. left. exact Hin. }
    rewrite (existsb_eqb_fresh x acc Hfresh).
    rewrite IH; rewrite <- app_assoc; simpl; [reflexivity | exact Hnd].
Qed.

Lemma Set_of_NoDup (xs : list string) : NoDup xs -> Obj.Set_of xs = xs.
Proof. intros Hnd. unfold Obj.Set_of. apply (Set_of_from xs []). exact Hnd. Qed.

Lemma Obj_get_after (p s : JSObject) (k : string) (v : any) :
  ~ In k (Obj.keys p) -> Obj.get (p ++ (k, v) :: s)%list k = v.
Proof.
  induction p as [| [k' v'] p IH]; simpl; intros Hnotin.
  - rewrite String.eqb_refl. reflexivity.
  - destruct (String.eqb_spec k' k) as [-> | _].
    + exfalso. apply Hnotin. left. reflexivity.
    + apply IH. intros Hin. apply Hnotin. right. exact Hin.
Qed.

Lemma Obj_insert_last (o : JSObject) (k : string) (v : any) :
  (forall k', In k' (Obj.keys o) -> Obj.goes_before k k' = false) ->
  Obj.insert o k v = (o ++ [(k, v)])%list.
Proof.
  induction o as [| [k' v'] o IH]; simpl; intros Hlast; [reflexivity |].
  rewrite (Hlast k' (or_introl eq_refl)).
  rewrite IH; [reflexivity |]. intros k'' Hin. apply Hlast. right. exact Hin.
Qed.

Lemma Obj_set_fresh (o : JSObject) (k : string) (v : any) :
  ~ In k (Obj.keys o) ->
  (forall k', In k' (Obj.keys o) -> Obj.goes_before k k' = false) ->
  Obj.set o k v = (o ++ [(k, v)])%list.
Proof.
  intros Hfresh Hlast. unfold Obj.set, Obj.has.
  rewrite (existsb_eqb_fresh k (Obj.keys o) Hfresh).
  apply Obj_insert_last. exact Hlast.
Qed.

Lemma without_transient_keys (tm : list (string * bool)) (o : JSObject)
  (k : string) :
  In k (Obj.keys (without_transient tm o)) -> In k (Obj.keys o).
Proof.
  unfold Obj.keys, without_transient. intros Hin.
  apply in_map_iff in Hin. destruct Hin as (kv & Hk & Hkv).
  apply filter_In in Hkv. apply in_map_iff. exists kv.
  split; [exact Hk | exact (proj1 Hkv)].
Qed.

Lemma StronglySorted_middle {A} (R : A -> A -> Prop) (p s : list A) (x : A) :
  StronglySorted R (p ++ x :: s) -> Forall (fun a => R a x) p.
Proof.
  induction p as [| a p IH]; simpl; intros Hs; [constructor |].
  apply StronglySorted_inv in Hs. destruct Hs as [Hs Hall].
  constructor; [| exact (IH Hs)].
  rewrite Forall_forall in Hall. apply Hall.
  apply in_or_app. right. left. reflexivity.
Qed.

Lemma well_formed_next (p s : JSObject) (k : string) (v : any) :
  well_formed (p ++ (k, v) :: s)%list ->
  ~ In k (Obj.keys p)
  /\ (forall k', In k' (Obj.keys p) -> Obj.goes_before k k' = false).
Proof.
  intros [Hnd Hord]. split.
  - unfold Obj.keys in Hnd. rewrite map_app in Hnd. simpl in Hnd.
    apply NoDup_remove_2 in Hnd. intros Hin. apply Hnd.
    apply in_or_app. left. exact Hin.
  - intros k' Hin. apply StronglySorted_middle in Hord.
    rewrite Forall_forall in Hord.
    unfold Obj.keys in Hin. apply in_map_iff in Hin.
    destruct Hin as ([k0 v0] & Hk & Hin). simpl in Hk. subst k0.
    exact (Hord (k', v0) Hin).
Qed.

Lemma filter_loop_from (tm : list (string * bool)) (s p : JSObject) :
  well_formed (p ++ s)%list ->
  fold_left
    (fun filteredMetadata key =>
       if negb (is_transient tm key)
       then Obj.assign filteredMetadata key (Obj.get (p ++ s)%list key)
       else filteredMetadata)
    (Obj.keys s) (without_transient tm p)
  = without_transient tm (p ++ s)%list.
Proof.
  revert p. induction s as [| [k v] s IH]; intros p Hwf; simpl.
  - rewrite app_nil_r. reflexivity.
  - destruct (well_formed_next p s k v Hwf) as [Hfresh Hlast].
    assert (Hfresh' : ~ In k (Obj.keys (without_transient tm p)))
      by (intros Hin; apply Hfresh; exact (without_transient_keys tm p k Hin)).
    assert (Hstep :
              (if negb (is_transient tm k)
               then Obj.assign (without_transient tm p) k
                      (Obj.get (p ++ (k, v) :: s)%list k)
               else without_transient tm p)
              = without_transient tm (p ++ [(k, v)])%list).
    { unfold without_transient at 3. rewrite filter_app. simpl.
      unfold is_kept at 2.
      destruct (negb (is_transient tm k)); simpl.
      - rewrite Obj_get_after by exact Hfresh.
        unfold Obj.assign, Obj.has.
        rewrite (existsb_eqb_fresh k _ Hfresh'). simpl.
        destruct (String.eqb k "__proto__"); simpl.
        + symmetry. apply app_nil_r.
        + apply Obj_set_fresh; [exact Hfresh' |].
          intros k' Hin. apply Hlast.
          exact (without_transient_keys tm p k' Hin).
      - symmetry. apply app_nil_r. }
    rewrite Hstep.
    replace (p ++ (k, v) :: s)%list with ((p ++ [(k, v)]) ++ s)%list
      by (rewrite <- app_assoc; reflexivity).
    apply IH. rewrite <- app_assoc. exact Hwf.
Qed.

Lemma filterMetadata_removes_transient (tm : list (string * bool))
  (o : JSObject) :
  well_formed o -> filterMetadata tm o = without_transient tm o.
Proof.
  intros Hwf. unfold filterMetadata.
  rewrite Set_of_NoDup by exact (proj1 Hwf).
  exact (filter_loop_from tm o [] Hwf).
Qed.

Lemma same_filteredMetadata_same_hash (this : DiffElementViewModelBase)
  (original modified : DiffNestedCellViewModel) (type : SideBySideType) :
  self this = SideBySideDiffElementViewModel original modified type ->
  language original = language modified ->
  filterMetadata
    (transientMetadata (transientOptions (documentTextModel this)))
    (metadata_or_empty original)
  = filterMetadata
      (transientMetadata (transientOptions (documentTextModel this)))
      (metadata_or_empty modified) ->
  checkMetadataIfModified this = false.
Proof.
  intros Hself Hlang Hmeta.
  unfold checkMetadataIfModified, SideBySide_checkMetadataIfModified.
  rewrite Hself. unfold getFormatedMetadataJSON.
  rewrite Hlang, Hmeta, Z.eqb_refl. reflexivity.
Qed.

Lemma filter_filter_and {A} (f g : A -> bool) (l : list A) :
  filter f (filter g l) = filter (fun x => g x && f x) l.
Proof.
  induction l as [| x l IH]; simpl; [reflexivity |].
  destruct (g x); simpl; [destruct (f x); rewrite IH; reflexivity | exact IH].
Qed.

(** A key that is kept is not marked transient: the filter of the code
    removes at least the marked keys. *)
Lemma without_transient_of_without_marked (tm : list (string * bool))
  (o : JSObject) :
  without_transient tm o
  = filter (fun kv => is_kept tm (fst kv)) (without_marked tm o).
Proof.
  unfold without_transient, without_marked. rewrite filter_filter_and.
  apply filter_ext. intros [k v]. simpl.
  unfold is_kept, is_transient, marked_transient.
  destruct (own_transient tm k) as [[|] |]; reflexivity.
Qed.

(** C6, amended. A side-by-side element whose two cells have the same
    language and, once the keys marked transient in
    [documentTextModel.transientOptions.transientMetadata] are removed,
    the same metadata properties in the same order, reports no metadata
    change. *)
Theorem checkMetadataIfModified_false :
  forall this original modified type,
    self this = SideBySideDiffElementViewModel original modified type ->
    well_formed (metadata_or_empty original) ->
    well_formed (metadata_or_empty modified) ->
    language original = language modified ->
    without_marked
      (transientMetadata (transientOptions (documentTextModel this)))
      (metadata_or_empty original)
    = without_marked
        (transientMetadata (transientOptions (documentTextModel this)))
        (metadata_or_empty modified) ->
    checkMetadataIfModified this = false.
Proof.
  intros this o m t Hself Hwo Hwm Hlang Hmeta.
  apply (same_filteredMetadata_same_hash this o m t Hself Hlang).
  rewrite !filterMetadata_removes_transient by assumption.
  rewrite !without_transient_of_without_marked, Hmeta. reflexivity.
Qed.

(** C9. A single-side element never reports modified outputs or modified
    metadata. *)
Theorem single_side_is_never_modified :
  forall this original modified type,
    self this = SingleSideDiffElementViewModel original modified type ->
    checkIfOutputsModified this = false
    /\ checkMetadataIfModified this = false.
Proof.
  intros this o m t Hself.
  unfold checkIfOutputsModified, checkMetadataIfModified.
  rewrite Hself. split; reflexivity.
Qed.

(** *** Accessors *)

(** C10. Reading [rawOutputHeight], [outputStatusHeight], [editorHeight],
    [editorMargin] or [metadataHeight] throws an [Error] whose message
    points to [layoutInfo], and leaves the view model as it was; writing
    one of them returns, stores the value in [layoutInfo] and fires one
    layout event. *)
Theorem getters_throw_setters_layout :
  forall this,
    (get_rawOutputHeight this
     = (Throw (mkError "Use Cell.layoutInfo.rawOutputHeight"), this)
     /\ get_outputStatusHeight this
        = (Throw (mkError "Use Cell.layoutInfo.outputStatusHeight"), this)
     /\ get_editorHeight this
        = (Throw (mkError "Use Cell.layoutInfo.editorHeight"), this)
     /\ get_editorMargin this
        = (Throw (mkError "Use Cell.layoutInfo.editorMargin"), this)
     /\ get_metadataHeight this
        = (Throw (mkError "Use Cell.layoutInfo.metadataHeight"), this))
    /\ forall v,
        let fired m :=
          List.length (_layoutInfoEmitter (after m this))
          = S (List.length (_layoutInfoEmitter this)) in
        (returned (set_rawOutputHeight v) this = Ok tt
         /\ LI.rawOutputHeight (layoutInfo (after (set_rawOutputHeight v) this))
            = v
         /\ fired (set_rawOutputHeight v))
        /\ (returned (set_outputStatusHeight v) this = Ok tt
            /\ LI.outputStatusHeight
                 (layoutInfo (after (set_outputStatusHeight v) this)) = v
            /\ fired (set_outputStatusHeight v))
        /\ (returned (set_editorHeight v) this = Ok tt
            /\ LI.editorHeight (layoutInfo (after (set_editorHeight v) this))
               = v
            /\ fired (set_editorHeight v))
        /\ (returned (set_editorMargin v) this = Ok tt
            /\ LI.editorMargin (layoutInfo (after (set_editorMargin v) this))
               = v
            /\ fired (set_editorMargin v))
        /\ (returned (set_metadataHeight v) this = Ok tt
            /\ LI.metadataHeight
                 (layoutInfo (after (set_metadataHeight v) this)) = v
            /\ fired (set_metadataHeight v)).
Proof.
  intros this. split.
  - repeat split.
  - intros v fired. subst fired.
    unfold set_rawOutputHeight, set_outputStatusHeight, set_editorHeight,
      set_editorMargin, set_metadataHeight.
    rewrite !_layout_fires, !_layout_layoutInfo, !length_app; simpl.
    rewrite !Nat.add_1_r.
    repeat match goal with |- _ /\ _ => split end; reflexivity.
Qed.

(** ** Further properties *)

(** *** How calls of [_layout] compose *)

Lemma newLayout_of_next_layout (this : DiffElementViewModelBase)
  (delta : Delta.t) :
  newLayout_of this delta
  = next_layout (_getOutputTotalHeight this) (_layoutInfo this) delta.
Proof. reflexivity. Qed.

Lemma _getOutputTotalHeight_after_layout (delta : Delta.t)
  (this : DiffElementViewModelBase) (raw : number) :
  _getOutputTotalHeight (after (_layout delta) this) raw
  = _getOutputTotalHeight this raw.
Proof. reflexivity. Qed.

Lemma or_previous_later_field {A} (a b : option A) (x : A) :
  or_previous (later_field a b) x = or_previous b (or_previous a x).
Proof. destruct a, b; reflexivity. Qed.

Lemma or_previous_swap {A} (a b : option A) (x : A) :
  defined a && defined b = false ->
  or_previous b (or_previous a x) = or_previous a (or_previous b x).
Proof. destruct a, b; simpl; intros Hd; try reflexivity; discriminate. Qed.

Lemma recomputes_output_merge (d1 d2 : Delta.t) :
  recomputes_output (merge_delta d1 d2)
  = recomputes_output d1 || recomputes_output d2.
Proof.
  unfold recomputes_output, merge_delta; simpl.
  destruct (truthy (Delta.recomputeOutput d1)),
    (truthy (Delta.recomputeOutput d2)),
    (Delta.rawOutputHeight d1), (Delta.rawOutputHeight d2); reflexivity.
Qed.

Lemma not_recomputing_keeps_raw (d : Delta.t) (x : number) :
  recomputes_output d = false ->
  or_previous (Delta.rawOutputHeight d) x = x.
Proof.
  unfold recomputes_output. destruct (Delta.rawOutputHeight d); simpl.
  - rewrite orb_true_r. discriminate.
  - reflexivity.
Qed.

Lemma next_layout_merge (g : number -> number) (old : LI.t)
  (d1 d2 : Delta.t) :
  next_layout g (next_layout g old d1) d2 = next_layout g old (merge_delta d1 d2).
Proof.
  unfold next_layout. rewrite recomputes_output_merge. simpl.
  rewrite !or_previous_later_field.
  destruct (recomputes_output d2) eqn:H2.
  - rewrite orb_true_r. reflexivity.
  - rewrite orb_false_r.
    rewrite (not_recomputing_keeps_raw d2 _ H2). reflexivity.
Qed.

Lemma next_layout_repeat (g : number -> number) (old : LI.t) (d : Delta.t) :
  next_layout g (next_layout g old d) d = next_layout g old d.
Proof.
  unfold next_layout. simpl.
  assert (Hrep : forall (a : option number) x,
             or_previous a (or_previous a x) = or_previous a x)
    by (intros [|] x; reflexivity).
  rewrite !Hrep.
  destruct (recomputes_output d); reflexivity.
Qed.

Lemma disjoint_deltas_fields (d1 d2 : Delta.t) :
  disjoint_deltas d1 d2 = true ->
  forall old,
    or_previous (Delta.width d2) (or_previous (Delta.width d1) (LI.width old))
    = or_previous (Delta.width d1) (or_previous (Delta.width d2) (LI.width old))
    /\ or_previous (Delta.editorHeight d2)
         (or_previous (Delta.editorHeight d1) (LI.editorHeight old))
       = or_previous (Delta.editorHeight d1)
           (or_previous (Delta.editorHeight d2) (LI.editorHeight old))
    /\ or_previous (Delta.editorMargin d2)
         (or_previous (Delta.editorMargin d1) (LI.editorMargin old))
       = or_previous (Delta.editorMargin d1)
           (or_previous (Delta.editorMargin d2) (LI.editorMargin old))
    /\ or_previous (Delta.metadataHeight d2)
         (or_previous (Delta.metadataHeight d1) (LI.metadataHeight old))
       = or_previous (Delta.metadataHeight d1)
           (or_previous (Delta.metadataHeight d2) (LI.metadataHeight old))
    /\ or_previous (Delta.metadataStatusHeight d2)
         (or_previous (Delta.metadataStatusHeight d1)
            (LI.metadataStatusHeight old))
       = or_previous (Delta.metadataStatusHeight d1)
           (or_previous (Delta.metadataStatusHeight d2)
              (LI.metadataStatusHeight old))
    /\ or_previous (Delta.rawOutputHeight d2)
         (or_previous (Delta.rawOutputHeight d1) (LI.rawOutputHeight old))
       = or_previous (Delta.rawOutputHeight d1)
           (or_previous (Delta.rawOutputHeight d2) (LI.rawOutputHeight old))
    /\ or_previous (Delta.outputStatusHeight d2)
         (or_previous (Delta.outputStatusHeight d1) (LI.outputStatusHeight old))
       = or_previous (Delta.outputStatusHeight d1)
           (or_previous (Delta.outputStatusHeight d2)
              (LI.outputStatusHeight old))
    /\ or_previous (Delta.bodyMargin d2)
         (or_previous (Delta.bodyMargin d1) (LI.bodyMargin old))
       = or_previous (Delta.bodyMargin d1)
           (or_previous (Delta.bodyMargin d2) (LI.bodyMargin old)).
Proof.
  unfold disjoint_deltas. intros Hd old.
  repeat (apply andb_true_iff in Hd; destruct Hd as [Hd ?]).
  repeat match goal with
         | H : negb _ = true |- _ => apply negb_true_iff in H
         end.
  repeat split; apply or_previous_swap; assumption.
Qed.

Lemma next_layout_swap (g : number -> number) (old : LI.t) (d1 d2 : Delta.t) :
  disjoint_deltas d1 d2 = true ->
  next_layout g (next_layout g old d1) d2
  = next_layout g (next_layout g old d2) d1.
Proof.
  intros Hd.
  destruct (disjoint_deltas_fields d1 d2 Hd old)
    as (Hw & Heh & Hem & Hmh & Hmsh & Hraw & Hosh & Hbm).
  unfold next_layout. simpl.
  rewrite Hw, Heh, Hem, Hmh, Hmsh, Hraw, Hosh, Hbm.
  destruct (recomputes_output d1) eqn:H1, (recomputes_output d2) eqn:H2;
    try reflexivity.
  - rewrite !(not_recomputing_keeps_raw d2 _ H2). reflexivity.
  - rewrite !(not_recomputing_keeps_raw d1 _ H1). reflexivity.
Qed.

(** X1. Two calls of [_layout] in a row leave the layout that one call with
    the merged delta leaves (later fields win, the output height is
    recomputed when either call asks for it). *)
Theorem _layout_twice_is_merged_layout :
  forall this d1 d2,
    layoutInfo (after (_layout d2) (after (_layout d1) this))
    = layoutInfo (after (_layout (merge_delta d1 d2)) this).
Proof.
  intros this d1 d2.
  rewrite !_layout_layoutInfo, !newLayout_of_next_layout.
  change (_layoutInfo (after (_layout d1) this))
    with (layoutInfo (after (_layout d1) this)).
  rewrite _layout_layoutInfo, newLayout_of_next_layout.
  apply next_layout_merge.
Qed.

Lemma newLayout_of_again (this : DiffElementViewModelBase) (delta : Delta.t) :
  newLayout_of (after (_layout delta) this) delta = newLayout_of this delta.
Proof.
  rewrite !newLayout_of_next_layout.
  change (_layoutInfo (after (_layout delta) this))
    with (layoutInfo (after (_layout delta) this)).
  rewrite _layout_layoutInfo, newLayout_of_next_layout.
  apply next_layout_repeat.
Qed.

(** X2. Repeating a call of [_layout] with the same delta does not change
    the layout again. *)
Theorem _layout_idempotent :
  forall this delta,
    layoutInfo (after (_layout delta) (after (_layout delta) this))
    = layoutInfo (after (_layout delta) this).
Proof.
  intros this delta.
  rewrite !_layout_layoutInfo. apply newLayout_of_again.
Qed.

Lemma changeEvent_of_same (l : LI.t) :
  no_NaN l = true -> changeEvent_of l l = Ev.empty.
Proof.
  unfold no_NaN. intros Hn.
  repeat (apply andb_true_iff in Hn; destruct Hn as [Hn ?]).
  repeat match goal with
         | H : negb _ = true |- _ => apply negb_true_iff in H
         end.
  unfold changeEvent_of.
  rewrite !strict_neq_irrefl by assumption. reflexivity.
Qed.

(** X3. When the layout a call of [_layout] leaves holds no [NaN], calling
    [_layout] again with the same delta fires the event [{}]: nothing is
    flagged. *)
Theorem _layout_repeated_fires_empty_event :
  forall this delta,
    no_NaN (layoutInfo (after (_layout delta) this)) = true ->
    _layoutInfoEmitter (after (_layout delta) (after (_layout delta) this))
    = (_layoutInfoEmitter (after (_layout delta) this) ++ [Ev.empty])%list.
Proof.
  intros this delta Hn.
  rewrite (_layout_fires delta (after (_layout delta) this)).
  f_equal. f_equal.
  rewrite (newLayout_of_again this delta).
  apply changeEvent_of_same. exact Hn.
Qed.

(** X4. Two calls of [_layout] whose deltas define no common layout field
    commute: either order leaves the same layout. *)
Theorem _layout_disjoint_deltas_commute :
  forall this d1 d2,
    disjoint_deltas d1 d2 = true ->
    layoutInfo (after (_layout d2) (after (_layout d1) this))
    = layoutInfo (after (_layout d1) (after (_layout d2) this)).
Proof.
  intros this d1 d2 Hd.
  rewrite !_layout_layoutInfo, !newLayout_of_next_layout.
  change (_layoutInfo (after (_layout d1) this))
    with (layoutInfo (after (_layout d1) this)).
  change (_layoutInfo (after (_layout d2) this))
    with (layoutInfo (after (_layout d2) this)).
  rewrite !_layout_layoutInfo, !newLayout_of_next_layout.
  apply next_layout_swap. exact Hd.
Qed.

(** *** Sequences of calls *)

Lemma perform_returns (c : Call) (this : DiffElementViewModelBase) :
  returned (perform c) this = Ok tt.
Proof. destruct c; reflexivity. Qed.

Lemma perform_all_cons (c : Call) (cs : list Call)
  (this : DiffElementViewModelBase) :
  perform_all (c :: cs) this = perform_all cs (after (perform c) this).
Proof.
  pose proof (perform_returns c this) as Hret.
  unfold returned, after in *. simpl. unfold bind.
  destruct (perform c this) as [r this']. simpl in *. subst r. reflexivity.
Qed.

(** An invariant of every single call is an invariant of every sequence. *)
Lemma perform_all_invariant (P : DiffElementViewModelBase -> Prop) :
  (forall c this, P this -> P (after (perform c) this)) ->
  forall cs this, P this -> P (after (perform_all cs) this).
Proof.
  intros Hstep cs. induction cs as [| c cs IH]; intros this HP.
  - exact HP.
  - unfold after. rewrite perform_all_cons. apply IH. apply Hstep. exact HP.
Qed.

Lemma perform_frame (c : Call) (this : DiffElementViewModelBase) :
  documentTextModel (after (perform c) this) = documentTextModel this
  /\ self (after (perform c) this) = self this
  /\ metadataFoldingState (after (perform c) this) = metadataFoldingState this
  /\ outputFoldingState (after (perform c) this) = outputFoldingState this.
Proof. destruct c; repeat split. Qed.

(** X5. No sequence of calls throws, and none changes the text model, the
    cells and type, or the two folding states of the view model. *)
Theorem calls_return_and_keep_the_element :
  forall cs this,
    returned (perform_all cs) this = Ok tt
    /\ documentTextModel (after (perform_all cs) this) = documentTextModel this
    /\ self (after (perform_all cs) this) = self this
    /\ metadataFoldingState (after (perform_all cs) this)
       = metadataFoldingState this
    /\ outputFoldingState (after (perform_all cs) this)
       = outputFoldingState this.
Proof.
  intros cs. induction cs as [| c cs IH]; intros this.
  - repeat split.
  - unfold returned, after in *. rewrite perform_all_cons.
    destruct (IH (after (perform c) this)) as (Hr & Hd & Hs & Hm & Ho).
    destruct (perform_frame c this) as (Hd' & Hs' & Hm' & Ho').
    rewrite Hr, Hd, Hs, Hm, Ho, Hd', Hs', Hm', Ho'. repeat split.
Qed.

Lemma perform_fires (c : Call) (this : DiffElementViewModelBase) :
  List.length (_layoutInfoEmitter (after (perform c) this))
  = S (List.length (_layoutInfoEmitter this))
  /\ _stateChangeEmitter (after (perform c) this)
     = (_stateChangeEmitter this ++ renderOutput_values [c])%list
  /\ renderOutput (after (perform c) this)
     = last (renderOutput_values [c]) (renderOutput this).
Proof.
  destruct c; simpl;
    (split; [| split; [try (symmetry; apply app_nil_r) | reflexivity]]);
    try reflexivity;
    unfold after; simpl; rewrite length_app; simpl; apply Nat.add_1_r.
Qed.

Lemma renderOutput_values_cons (c : Call) (cs : list Call) :
  renderOutput_values (c :: cs)
  = (renderOutput_values [c] ++ renderOutput_values cs)%list.
Proof. destruct c; reflexivity. Qed.

Lemma last_cons_default {A} (l : list A) (x d : A) :
  last (x :: l) d = last l x.
Proof.
  revert x d. induction l as [| a l IH]; intros x d; [reflexivity |].
  change (last (x :: a :: l) d) with (last (a :: l) d).
  rewrite (IH a d), (IH a x). reflexivity.
Qed.

Lemma last_app_default {A} (l1 l2 : list A) (d : A) :
  last (l1 ++ l2) d = last l2 (last l1 d).
Proof.
  revert d. induction l1 as [| x l1 IH]; intros d; [reflexivity |].
  rewrite <- app_comm_cons, !last_cons_default. apply IH.
Qed.

(** X6. Every call fires exactly one layout event: after a sequence of
    calls the layout emitter has fired once per call. *)
Theorem calls_fire_one_layout_event_each :
  forall cs this,
    List.length (_layoutInfoEmitter (after (perform_all cs) this))
    = (List.length (_layoutInfoEmitter this) + List.length cs)%nat.
Proof.
  intros cs. induction cs as [| c cs IH]; intros this.
  - simpl. symmetry. apply Nat.add_0_r.
  - unfold after in *. rewrite perform_all_cons, IH.
    destruct (perform_fires c this) as (Hl & _).
    rewrite Hl. simpl. rewrite Nat.add_succ_r. reflexivity.
Qed.

(** X7. The state-change emitter fires exactly the values given to the
    [renderOutput] setter, in order, and [renderOutput] reads the last of
    them (or its old value when the setter was not called). *)
Theorem renderOutput_setter_trace :
  forall cs this,
    _stateChangeEmitter (after (perform_all cs) this)
    = (_stateChangeEmitter this ++ renderOutput_values cs)%list
    /\ renderOutput (after (perform_all cs) this)
       = last (renderOutput_values cs) (renderOutput this).
Proof.
  intros cs. induction cs as [| c cs IH]; intros this.
  - split; [symmetry; apply app_nil_r | reflexivity].
  - unfold after in *. rewrite perform_all_cons.
    destruct (IH (after (perform c) this)) as (He & Hr).
    destruct (perform_fires c this) as (_ & He' & Hr').
    rewrite He, Hr, He', Hr', (renderOutput_values_cons c cs).
    split; [symmetry; apply app_assoc | symmetry; apply last_app_default].
Qed.

(** *** A folded output section *)

Lemma _layout_folded (delta : Delta.t) (this : DiffElementViewModelBase) :
  folded_with_no_height this ->
  folded_with_no_height (after (_layout delta) this).
Proof.
  intros [Hfold Hzero]. split; [exact Hfold |].
  rewrite _layout_layoutInfo, newLayout_of_next_layout.
  unfold next_layout; simpl.
  destruct (recomputes_output delta).
  - unfold _getOutputTotalHeight. rewrite Hfold. reflexivity.
  - exact Hzero.
Qed.

Lemma perform_folded (c : Call) (this : DiffElementViewModelBase) :
  folded_with_no_height this ->
  folded_with_no_height (after (perform c) this).
Proof.
  intros Hf.
  destruct c; simpl perform;
    unfold set_rawOutputHeight, set_outputStatusHeight, set_editorHeight,
      set_editorMargin, set_metadataHeight, layoutChange,
      on_cell_onDidChangeOutputLayout;
    try (apply _layout_folded; exact Hf).
  exact Hf.
Qed.

Lemma perform_all_folded (cs : list Call) (this : DiffElementViewModelBase) :
  folded_with_no_height this ->
  folded_with_no_height (after (perform_all cs) this).
Proof. apply (perform_all_invariant folded_with_no_height perform_folded). Qed.

(** X8. While the output section is folded, no sequence of calls gives it a
    height: [outputTotalHeight] stays 0 whatever heights are reported and
    whatever [renderOutput] is set to. *)
Theorem folded_output_keeps_height_zero :
  forall cs this,
    outputFoldingState this = Collapsed ->
    LI.outputTotalHeight (layoutInfo this) = JSNumber.of_Z 0 ->
    LI.outputTotalHeight (layoutInfo (after (perform_all cs) this))
    = JSNumber.of_Z 0.
Proof.
  intros cs this Hfold Hzero.
  exact (proj2 (perform_all_folded cs this (conj Hfold Hzero))).
Qed.

Lemma same_outputs_not_modified (doc : NotebookTextModel)
  (o m : DiffNestedCellViewModel) :
  transientOutputs (transientOptions doc) = true \/ outputs o = outputs m ->
  SideBySide_checkIfOutputsModified doc o m = false.
Proof.
  unfold SideBySide_checkIfOutputsModified. intros [Htr | Hout].
  - rewrite Htr. reflexivity.
  - rewrite Hout, Z.eqb_refl. apply andb_false_r.
Qed.

(** X9. A side-by-side element created for cells with equal outputs, or
    for a notebook whose outputs are transient, starts with its output
    section folded; whatever is called on it afterwards,
    [outputTotalHeight] is 0. *)
Theorem unmodified_outputs_take_no_height :
  forall doc original modified type cs,
    transientOutputs (transientOptions doc) = true
    \/ outputs original = outputs modified ->
    let this := new_SideBySideDiffElementViewModel doc original modified type in
    outputFoldingState this = Collapsed
    /\ LI.outputTotalHeight (layoutInfo (after (perform_all cs) this))
       = JSNumber.of_Z 0.
Proof.
  intros doc o m t cs Hsame this.
  assert (Hf : folded_with_no_height this).
  { subst this. unfold new_SideBySideDiffElementViewModel. cbv zeta.
    destruct (checkMetadataIfModified _);
      unfold checkIfOutputsModified; simpl;
      rewrite (same_outputs_not_modified doc o m Hsame);
      split; reflexivity. }
  split; [exact (proj1 Hf) |].
  exact (proj2 (perform_all_folded cs this Hf)).
Qed.

Lemma perform_consistent (c : Call) (this : DiffElementViewModelBase) :
  totalHeight_consistent (layoutInfo this) ->
  totalHeight_consistent (layoutInfo (after (perform c) this)).
Proof. intros Hc. destruct c; try reflexivity. exact Hc. Qed.

(** X10. A layout whose [totalHeight] is the sum of its parts stays so
    under every sequence of calls, the listeners included. *)
Theorem calls_keep_totalHeight_consistent :
  forall cs this,
    totalHeight_consistent (layoutInfo this) ->
    totalHeight_consistent (layoutInfo (after (perform_all cs) this)).
Proof.
  intros cs this.
  apply (perform_all_invariant
           (fun this => totalHeight_consistent (layoutInfo this))
           perform_consistent).
Qed.

(** *** Output height by mode *)

(** X11. The raw output height is remembered while the output section is
    folded: set while folded it gives no height, and once the section is
    unfolded (and outputs are not rendered) [layoutChange] makes it the
    output height. *)
Theorem rawOutputHeight_is_remembered_while_folded :
  forall this height,
    renderOutput this = false ->
    let folded :=
      after (set_rawOutputHeight height) (with_outputFoldingState Collapsed this)
    in
    let unfolded :=
      after layoutChange (with_outputFoldingState Expanded folded) in
    LI.outputTotalHeight (layoutInfo folded) = JSNumber.of_Z 0
    /\ LI.rawOutputHeight (layoutInfo folded) = height
    /\ LI.outputTotalHeight (layoutInfo unfolded) = height
    /\ LI.rawOutputHeight (layoutInfo unfolded) = height.
Proof.
  intros this height Hr folded unfolded. subst folded unfolded.
  unfold set_rawOutputHeight, layoutChange.
  repeat split.
  rewrite _layout_layoutInfo, newLayout_of_next_layout.
  unfold next_layout; simpl.
  unfold _getOutputTotalHeight; simpl.
  unfold renderOutput in *; simpl. rewrite Hr. reflexivity.
Qed.

(** X12. On an unfolded element the [renderOutput] setter switches the
    output height: set to true, the height is 24 for an empty output and
    the rich output height otherwise; set to false, it is the stored raw
    output height.  The raw output height itself is kept. *)
Theorem renderOutput_switches_output_height :
  forall this,
    outputFoldingState this = Expanded ->
    LI.outputTotalHeight (layoutInfo (after (set_renderOutput true) this))
    = (if isOutputEmpty this then JSNumber.of_Z 24
       else getRichOutputTotalHeight this)
    /\ LI.outputTotalHeight (layoutInfo (after (set_renderOutput false) this))
       = LI.rawOutputHeight (layoutInfo this)
    /\ forall value,
        LI.rawOutputHeight (layoutInfo (after (set_renderOutput value) this))
        = LI.rawOutputHeight (layoutInfo this).
Proof.
  intros this Hfold.
  assert (Hrun : forall value,
             layoutInfo (after (set_renderOutput value) this)
             = next_layout (_getOutputTotalHeight (with_renderOutput value this))
                 (_layoutInfo this) (Delta.of_recomputeOutput true))
    by reflexivity.
  rewrite !Hrun. unfold next_layout, _getOutputTotalHeight; simpl.
  rewrite Hfold; simpl.
  split; [reflexivity | split; [reflexivity |]].
  intros value. reflexivity.
Qed.

(** X13. An element that reports an empty output does not report modified
    outputs; with transient outputs the output is always reported empty;
    and a side-by-side element whose cells have equal outputs reports an
    empty output exactly when outputs are transient or the cells have
    none. *)
Theorem empty_output_is_not_modified :
  forall this,
    (isOutputEmpty this = true -> checkIfOutputsModified this = false)
    /\ (transientOutputs (transientOptions (documentTextModel this)) = true ->
        isOutputEmpty this = true)
    /\ (forall original modified type,
          self this = SideBySideDiffElementViewModel original modified type ->
          outputs original = outputs modified ->
          isOutputEmpty this
          = transientOutputs (transientOptions (documentTextModel this))
            || Nat.eqb (List.length (outputs original)) 0).
Proof.
  intros this. unfold isOutputEmpty, checkIfOutputsModified.
  destruct (self this) as [o m t | o m t].
  - unfold SideBySide_isOutputEmpty, SideBySide_checkIfOutputsModified.
    split; [| split].
    + destruct (transientOutputs (transientOptions (documentTextModel this)));
        simpl; [reflexivity |].
      destruct (negb (Z.eqb _ _)); [discriminate | reflexivity].
    + intros Htr. rewrite Htr. reflexivity.
    + intros o' m' t' Hself Hout. injection Hself as -> -> ->.
      rewrite Hout, Z.eqb_refl.
      destruct (transientOutputs (transientOptions (documentTextModel this)));
        reflexivity.
  - unfold SingleSide_isOutputEmpty, SingleSide_checkIfOutputsModified.
    split; [reflexivity | split].
    + intros Htr. rewrite Htr. reflexivity.
    + intros o' m' t' Hself. discriminate.
Qed.

(** *** The rich output height of a side-by-side element *)

Lemma SFcompare_antisym (x y : number) :
  SFcompare y x = option_map CompOpp (SFcompare x y).
Proof.
  destruct x as [sx | sx | | sx mx ex], y as [sy | sy | | sy my ey];
    simpl; try reflexivity;
    try (destruct sx; reflexivity); try (destruct sy; reflexivity);
    try (destruct sx, sy; reflexivity).
  assert (Hm : Pos.compare_cont Eq my mx = CompOpp (Pos.compare_cont Eq mx my))
    by (rewrite Pos.compare_cont_antisym; reflexivity).
  destruct sx, sy; try reflexivity;
    rewrite (Z.compare_antisym ex ey), Hm;
    destruct (Z.compare ex ey); reflexivity.
Qed.

Lemma SFcompare_refl (x : number) :
  JSNumber.is_nan x = false -> SFcompare x x = Some Eq.
Proof.
  destruct x as [s | s | | s m e]; simpl; try discriminate; intros _;
    destruct s; try reflexivity;
    rewrite Z.compare_refl, Pos.compare_cont_refl; reflexivity.
Qed.

Lemma SFcompare_defined (x y : number) :
  JSNumber.is_nan x = false -> JSNumber.is_nan y = false ->
  exists c, SFcompare x y = Some c.
Proof.
  destruct x, y; simpl; try discriminate; intros _ _; eexists; reflexivity.
Qed.

Lemma SFcompare_Eq_cases (x y : number) :
  SFcompare x y = Some Eq ->
  x = y \/ (JSNumber.is_zero x = true /\ JSNumber.is_zero y = true).
Proof.
  intros E. apply strict_eq_cases.
  unfold JSNumber.strict_eq, SFeqb. rewrite E. reflexivity.
Qed.

Lemma max_comm (x y : number) : JSNumber.max x y = JSNumber.max y x.
Proof.
  unfold JSNumber.max. rewrite (SFcompare_antisym x y).
  destruct (SFcompare x y) as [[ | | ] |] eqn:E; simpl; try reflexivity.
  destruct (SFcompare_Eq_cases x y E) as [-> | [Hx Hy]].
  - destruct y as [s | | |]; try reflexivity.
  - destruct x as [sx | | |], y as [sy | | |]; try discriminate.
    rewrite andb_comm. reflexivity.
Qed.

Lemma max_bounds (x y : number) :
  JSNumber.is_nan x = false -> JSNumber.is_nan y = false ->
  number_le x (JSNumber.max x y) = true
  /\ number_le y (JSNumber.max x y) = true
  /\ (JSNumber.max x y = x \/ JSNumber.max x y = y).
Proof.
  intros Hx Hy.
  destruct (SFcompare_defined x y Hx Hy) as [c E].
  assert (Hmax : JSNumber.max x y
                 = match c with
                   | Lt => y
                   | Gt => x
                   | Eq =>
                       match x, y with
                       | S754_zero sx, S754_zero sy => S754_zero (sx && sy)
                       | _, _ => x
                       end
                   end)
    by (unfold JSNumber.max; rewrite E; destruct c; reflexivity).
  unfold number_le, SFleb. destruct c.
  - destruct (SFcompare_Eq_cases x y E) as [-> | [Hzx Hzy]].
    + assert (Hsame : JSNumber.max y y = y)
        by (rewrite Hmax; destruct y as [[|] | | |]; reflexivity).
      rewrite Hsame, (SFcompare_refl y Hy). repeat split. left. reflexivity.
    + destruct x as [sx | | |], y as [sy | | |]; try discriminate.
      rewrite Hmax. destruct sx, sy; simpl; repeat split; auto.
  - rewrite Hmax, E, (SFcompare_refl y Hy). repeat split. right. reflexivity.
  - rewrite Hmax, (SFcompare_antisym x y), E, (SFcompare_refl x Hx).
    repeat split. left. reflexivity.
Qed.

(** X14. The rich output height of a side-by-side element does not depend
    on which cell is the original and which the modified one, and it is
    [NaN] as soon as one cell's output height is. *)
Theorem rich_output_height_is_symmetric :
  forall original modified,
    SideBySide_getRichOutputTotalHeight original modified
    = SideBySide_getRichOutputTotalHeight modified original
    /\ (JSNumber.is_nan (getOutputTotalHeight original)
        || JSNumber.is_nan (getOutputTotalHeight modified) = true ->
        SideBySide_getRichOutputTotalHeight original modified = JSNumber.NaN).
Proof.
  intros o m. unfold SideBySide_getRichOutputTotalHeight. split.
  - apply max_comm.
  - unfold JSNumber.max.
    destruct (getOutputTotalHeight o), (getOutputTotalHeight m);
      simpl; try discriminate; reflexivity.
Qed.

(** X15. When neither cell's output height is [NaN], the rich output
    height of a side-by-side element is one of the two heights and is at
    least each of them. *)
Theorem rich_output_height_covers_both_cells :
  forall original modified,
    JSNumber.is_nan (getOutputTotalHeight original) = false ->
    JSNumber.is_nan (getOutputTotalHeight modified) = false ->
    let height := SideBySide_getRichOutputTotalHeight original modified in
    number_le (getOutputTotalHeight original) height = true
    /\ number_le (getOutputTotalHeight modified) height = true
    /\ (height = getOutputTotalHeight original
        \/ height = getOutputTotalHeight modified).
Proof.
  intros o m Ho Hm height. subst height.
  unfold SideBySide_getRichOutputTotalHeight. apply max_bounds; assumption.
Qed.

(** *** The filtered metadata *)

Lemma NoDup_keys_filter (f : string * any -> bool) (o : JSObject) :
  NoDup (Obj.keys o) -> NoDup (Obj.keys (filter f o)).
Proof.
  unfold Obj.keys. induction o as [| kv o IH]; simpl; intros Hnd.
  - constructor.
  - apply NoDup_cons_iff in Hnd. destruct Hnd as [Hfresh Hnd].
    destruct (f kv); [| exact (IH Hnd)].
    simpl. constructor; [| exact (IH Hnd)].
    intros Hin. apply Hfresh.
    apply in_map_iff in Hin. destruct Hin as (kv' & Hk & Hkv').
    apply filter_In in Hkv'. apply in_map_iff. exists kv'.
    split; [exact Hk | exact (proj1 Hkv')].
Qed.

Lemma filter_twice {A} (f : A -> bool) (l : list A) :
  filter f (filter f l) = filter f l.
Proof.
  induction l as [| x l IH]; simpl; [reflexivity |].
  destruct (f x) eqn:E; simpl; [rewrite E, IH; reflexivity | exact IH].
Qed.

Lemma StronglySorted_filter_keeps {A} (R : A -> A -> Prop) (f : A -> bool)
  (l : list A) :
  StronglySorted R l -> StronglySorted R (filter f l).
Proof.
  induction l as [| x l IH]; simpl; intros Hs; [constructor |].
  apply StronglySorted_inv in Hs. destruct Hs as [Hs Hall].
  destruct (f x); [| exact (IH Hs)].
  constructor; [exact (IH Hs) |].
  rewrite Forall_forall in *. intros y Hy.
  apply filter_In in Hy. exact (Hall y (proj1 Hy)).
Qed.

Lemma well_formed_filter (f : string * any -> bool) (o : JSObject) :
  well_formed o -> well_formed (filter f o).
Proof.
  intros [Hnd Hord]. split.
  - apply NoDup_keys_filter. exact Hnd.
  - apply StronglySorted_filter_keeps. exact Hord.
Qed.

(** X16. For a metadata object, the filtered metadata that
    [getFormatedMetadataJSON] builds holds exactly the properties whose
    key does not read truthy in [transientMetadata] (neither listed as
    true, nor an unlisted name of [Object.prototype]) and is not
    ["__proto__"]; it is an object again, and filtering it once more
    changes nothing. *)
Theorem filterMetadata_keeps_the_other_properties :
  forall transientMetadata metadata,
    well_formed metadata ->
    (forall key value,
        In (key, value) (filterMetadata transientMetadata metadata)
        <-> In (key, value) metadata
            /\ is_transient transientMetadata key = false
            /\ key <> "__proto__")
    /\ well_formed (filterMetadata transientMetadata metadata)
    /\ filterMetadata transientMetadata
         (filterMetadata transientMetadata metadata)
       = filterMetadata transientMetadata metadata.
Proof.
  intros tm o Hwf.
  rewrite (filterMetadata_removes_transient tm o Hwf).
  assert (Hwf' : well_formed (without_transient tm o))
    by (apply well_formed_filter; exact Hwf).
  split; [| split].
  - intros key value. unfold without_transient, is_kept.
    rewrite filter_In. simpl.
    rewrite andb_true_iff, !negb_true_iff, String.eqb_neq. reflexivity.
  - exact Hwf'.
  - rewrite (filterMetadata_removes_transient tm _ Hwf').
    apply filter_twice.
Qed.

(** *** Construction *)

(** X17. A new side-by-side element has the initial layout, renders no
    output, has fired nothing, and has its output (metadata) section
    unfolded exactly when its outputs (metadata) are modified. *)
Theorem new_side_by_side_element :
  forall doc original modified type,
    let this := new_SideBySideDiffElementViewModel doc original modified type in
    layoutInfo this = initialLayoutInfo
    /\ renderOutput this = false
    /\ _layoutInfoEmitter this = []
    /\ _stateChangeEmitter this = []
    /\ outputFoldingState this
       = (if checkIfOutputsModified this then Expanded else Collapsed)
    /\ metadataFoldingState this
       = (if checkMetadataIfModified this then Expanded else Collapsed).
Proof.
  intros doc o m t this. subst this.
  unfold new_SideBySideDiffElementViewModel. cbv zeta.
  unfold checkIfOutputsModified, checkMetadataIfModified. simpl.
  destruct (SideBySide_checkMetadataIfModified doc o m) eqn:Em; simpl;
    destruct (SideBySide_checkIfOutputsModified doc o m) eqn:Eo; simpl;
    repeat split; rewrite ?Em, ?Eo; reflexivity.
Qed.

Lemma new_single_side_around (doc : NotebookTextModel)
  (o m : option DiffNestedCellViewModel) (t : SingleSideType)
  (cell : DiffNestedCellViewModel) :
  match t with insert => m | delete => o end = Some cell ->
  single_side_element_of cell
    (new_DiffElementViewModelBase doc (SingleSideDiffElementViewModel o m t)).
Proof.
  intros Hcell.
  split; [reflexivity |]. split; [reflexivity |]. split; [| split].
  - intros diffSide. unfold getNestedCellViewModel, bind, read; simpl.
    unfold SingleSide_getNestedCellViewModel, ret.
    rewrite Hcell. reflexivity.
  - unfold getRichOutputTotalHeight, SingleSide_getRichOutputTotalHeight,
      cellViewModel; simpl.
    rewrite Hcell. reflexivity.
  - intros cs.
    apply (perform_all_folded cs
             (new_DiffElementViewModelBase doc
                (SingleSideDiffElementViewModel o m t))).
    split; reflexivity.
Qed.

(** X18. Creating a single-side element of type insert throws exactly
    when the modified cell is missing, and otherwise gives an element
    around the modified cell, whatever the original cell is; creating one
    of type delete throws exactly when the original cell is missing, and
    otherwise gives an element around the original cell.  The element
    starts folded, [getNestedCellViewModel] returns its cell for either
    side, the rich output height is that cell's, and no sequence of calls
    gives the output section a height. *)
Theorem new_single_side_element :
  forall doc original modified,
    match new_SingleSideDiffElementViewModel doc original modified insert with
    | Throw _ => modified = None
    | Ok this => exists cell, modified = Some cell
                              /\ single_side_element_of cell this
    end
    /\ match new_SingleSideDiffElementViewModel doc original modified delete
       with
       | Throw _ => original = None
       | Ok this => exists cell, original = Some cell
                                 /\ single_side_element_of cell this
       end.
Proof.
  intros doc o m. unfold new_SingleSideDiffElementViewModel, cellViewModel.
  split.
  - destruct m as [cell |]; [| reflexivity].
    exists cell. split; [reflexivity |].
    apply (new_single_side_around doc o (Some cell) insert cell). reflexivity.
  - destruct o as [cell |]; [| reflexivity].
    exists cell. split; [reflexivity |].
    apply (new_single_side_around doc (Some cell) m delete cell). reflexivity.
Qed.

End Properties.

(** ** The properties on the sample view models *)

Lemma checkIfOutputsModified_false_witness :
  self sample_side_by_side
  = SideBySideDiffElementViewModel sample_original sample_modified unchanged
  /\ outputs sample_original = outputs sample_modified
  /\ checkIfOutputsModified (collab := sample_collaborators)
       sample_side_by_side = false.
Proof.
  split; [reflexivity | split; [reflexivity |]].
  exact (proj1 (proj2 (checkIfOutputsModified_false
                         (collab := sample_collaborators)
                         sample_side_by_side sample_original sample_modified
                         unchanged eq_refl))
           eq_refl).
Defined.

Lemma checkMetadataIfModified_false_witness :
  self sample_side_by_side
  = SideBySideDiffElementViewModel sample_original sample_modified unchanged
  /\ language sample_original = language sample_modified
  /\ metadata sample_original <> metadata sample_modified
  /\ checkMetadataIfModified (collab := sample_collaborators)
       sample_side_by_side = false.
Proof.
  split; [reflexivity | split; [reflexivity | split; [discriminate |]]].
  apply (checkMetadataIfModified_false (collab := sample_collaborators)
           sample_side_by_side sample_original sample_modified unchanged);
    try reflexivity;
    repeat constructor; simpl; intuition discriminate.
Defined.

Lemma single_side_is_never_modified_witness :
  checkIfOutputsModified (collab := sample_collaborators) sample_single_side
  = false
  /\ checkMetadataIfModified (collab := sample_collaborators)
       sample_single_side = false.
Proof.
  apply (single_side_is_never_modified (collab := sample_collaborators)
           sample_single_side None (Some sample_modified) insert).
  reflexivity.
Defined.

Lemma collapsed_output_has_height_zero_witness :
  outputFoldingState sample_side_by_side = Collapsed
  /\ LI.outputTotalHeight
       (layoutInfo
          (after (_layout (collab := sample_collaborators)
                    (Delta.of_rawOutputHeight (JSNumber.of_Z 5)))
             sample_side_by_side))
     = JSNumber.of_Z 0.
Proof.
  split; [reflexivity |].
  apply (collapsed_output_has_height_zero (collab := sample_collaborators));
    reflexivity.
Defined.

Lemma _layout_deterministic_witness :
  sample_rendered sample_side_by_side <> sample_rendered sample_swapped
  /\ layoutInfo
       (after (_layout (collab := sample_collaborators) sample_delta)
          (sample_rendered sample_side_by_side))
     = layoutInfo
         (after (_layout (collab := sample_collaborators) sample_delta)
            (sample_rendered sample_swapped)).
Proof.
  split; [discriminate |].
  apply (_layout_deterministic (collab := sample_collaborators)
           (sample_rendered sample_side_by_side)
           (sample_rendered sample_swapped) sample_delta);
    reflexivity.
Defined.

(** C2 as stated fails where a field holds [NaN]: [layoutChange] leaves
    [editorHeight] as it is, and the event flags it. *)
Lemma unchanged_NaN_field_is_flagged :
  let this := sample_nan_height in
  let this' := after (layoutChange (collab := sample_collaborators)) this in
  LI.editorHeight (layoutInfo this') = LI.editorHeight (layoutInfo this)
  /\ ~ (forall e,
          _layoutInfoEmitter this' = (_layoutInfoEmitter this ++ [e])%list ->
          every_flag flag_differs e (layoutInfo this') (layoutInfo this)).
Proof.
  split; [reflexivity |].
  intros Hall.
  specialize (Hall _ eq_refl).
  destruct Hall as (_ & HeditorHeight & _).
  exact (HeditorHeight eq_refl eq_refl).
Qed.

(** C3 as stated fails for [rawOutputHeight]: with the output folded, a new
    raw output height changes that field and the event fired is [{}]. *)
Lemma rawOutputHeight_change_is_not_flagged :
  let this := sample_side_by_side in
  let this' :=
    after (set_rawOutputHeight (collab := sample_collaborators)
             (JSNumber.of_Z 5)) this in
  LI.rawOutputHeight (layoutInfo this') <> LI.rawOutputHeight (layoutInfo this)
  /\ LI.rawOutputHeight (layoutInfo this')
     !== LI.rawOutputHeight (layoutInfo this) = true
  /\ _layoutInfoEmitter this'
     = (_layoutInfoEmitter this ++ [Ev.empty])%list.
Proof.
  split; [| split].
  - vm_compute. discriminate.
  - vm_compute. reflexivity.
  - vm_compute. reflexivity.
Qed.

(** ** The further properties on the sample view models *)

Lemma _layout_repeated_fires_empty_event_witness :
  no_NaN
    (layoutInfo
       (after (_layout (collab := sample_collaborators) sample_delta)
          sample_side_by_side)) = true
  /\ _layoutInfoEmitter
       (after (_layout (collab := sample_collaborators) sample_delta)
          (after (_layout (collab := sample_collaborators) sample_delta)
             sample_side_by_side))
     = (_layoutInfoEmitter
          (after (_layout (collab := sample_collaborators) sample_delta)
             sample_side_by_side) ++ [Ev.empty])%list.
Proof.
  split; [reflexivity |].
  apply (_layout_repeated_fires_empty_event (collab := sample_collaborators)
           sample_side_by_side sample_delta).
  reflexivity.
Defined.

Lemma _layout_disjoint_deltas_commute_witness :
  disjoint_deltas sample_delta (Delta.of_editorHeight (JSNumber.of_Z 120))
  = true
  /\ layoutInfo
       (after (_layout (collab := sample_collaborators)
                 (Delta.of_editorHeight (JSNumber.of_Z 120)))
          (after (_layout (collab := sample_collaborators) sample_delta)
             sample_side_by_side))
     = layoutInfo
         (after (_layout (collab := sample_collaborators) sample_delta)
            (after (_layout (collab := sample_collaborators)
                      (Delta.of_editorHeight (JSNumber.of_Z 120)))
               sample_side_by_side)).
Proof.
  split; [reflexivity |].
  apply (_layout_disjoint_deltas_commute (collab := sample_collaborators)
           sample_side_by_side sample_delta
           (Delta.of_editorHeight (JSNumber.of_Z 120))).
  reflexivity.
Defined.

Lemma folded_output_keeps_height_zero_witness :
  outputFoldingState sample_side_by_side = Collapsed
  /\ LI.outputTotalHeight
       (layoutInfo
          (after (perform_all (collab := sample_collaborators) sample_calls)
             sample_side_by_side))
     = JSNumber.of_Z 0.
Proof.
  split; [reflexivity |].
  apply (folded_output_keeps_height_zero (collab := sample_collaborators)
           sample_calls sample_side_by_side);
    reflexivity.
Defined.

Lemma unmodified_outputs_take_no_height_witness :
  outputs sample_original = outputs sample_modified
  /\ LI.outputTotalHeight
       (layoutInfo
          (after (perform_all (collab := sample_collaborators) sample_calls)
             (new_SideBySideDiffElementViewModel
                (collab := sample_collaborators) sample_doc sample_original
                sample_modified unchanged)))
     = JSNumber.of_Z 0.
Proof.
  split; [reflexivity |].
  apply (unmodified_outputs_take_no_height (collab := sample_collaborators)
           sample_doc sample_original sample_modified unchanged sample_calls).
  right. reflexivity.
Defined.

Lemma calls_keep_totalHeight_consistent_witness :
  totalHeight_consistent (layoutInfo sample_side_by_side)
  /\ totalHeight_consistent
       (layoutInfo
          (after (perform_all (collab := sample_collaborators) sample_calls)
             sample_side_by_side)).
Proof.
  split; [reflexivity |].
  apply (calls_keep_totalHeight_consistent (collab := sample_collaborators)
           sample_calls sample_side_by_side).
  reflexivity.
Defined.

Lemma rawOutputHeight_is_remembered_while_folded_witness :
  renderOutput sample_side_by_side = false
  /\ LI.outputTotalHeight
       (layoutInfo
          (after (layoutChange (collab := sample_collaborators))
             (with_outputFoldingState Expanded
                (after (set_rawOutputHeight (collab := sample_collaborators)
                          (JSNumber.of_Z 5))
                   (with_outputFoldingState Collapsed sample_side_by_side)))))
     = JSNumber.of_Z 5.
Proof.
  split; [reflexivity |].
  apply (rawOutputHeight_is_remembered_while_folded
           (collab := sample_collaborators) sample_side_by_side
           (JSNumber.of_Z 5)).
  reflexivity.
Defined.

Lemma renderOutput_switches_output_height_witness :
  outputFoldingState (sample_rendered sample_side_by_side) = Expanded
  /\ LI.outputTotalHeight
       (layoutInfo
          (after (set_renderOutput (collab := sample_collaborators) true)
             (sample_rendered sample_side_by_side)))
     = JSNumber.of_Z 60.
Proof.
  split; [reflexivity |].
  exact (proj1 (renderOutput_switches_output_height
                  (collab := sample_collaborators)
                  (sample_rendered sample_side_by_side) eq_refl)).
Defined.

Lemma rich_output_height_covers_both_cells_witness :
  JSNumber.is_nan (getOutputTotalHeight sample_original) = false
  /\ JSNumber.is_nan (getOutputTotalHeight sample_modified) = false
  /\ number_le (getOutputTotalHeight sample_original)
       (SideBySide_getRichOutputTotalHeight sample_original sample_modified)
     = true.
Proof.
  split; [reflexivity | split; [reflexivity |]].
  exact (proj1 (rich_output_height_covers_both_cells sample_original
                  sample_modified eq_refl eq_refl)).
Defined.

Lemma filterMetadata_keeps_the_other_properties_witness :
  well_formed sample_inherited_names
  /\ In ("editable", JBoolean true) (filterMetadata [] sample_inherited_names)
  /\ ~ In ("constructor", JString "c")
        (filterMetadata [] sample_inherited_names).
Proof.
  assert (Hwf : well_formed sample_inherited_names)
    by (split; repeat constructor; simpl; intuition discriminate).
  split; [exact Hwf |]. split.
  - apply (proj1 (filterMetadata_keeps_the_other_properties []
                    sample_inherited_names Hwf)).
    split; [right; right; left; reflexivity |].
    split; [reflexivity | discriminate].
  - intros Hin.
    apply (proj1 (filterMetadata_keeps_the_other_properties []
                    sample_inherited_names Hwf)) in Hin.
    destruct Hin as (_ & Htransient & _). discriminate Htransient.
Defined.

(** C6 as stated fails when "the same metadata" is read as the same
    properties: the two cells have one language and the same two
    properties, in opposite orders, and a metadata change is reported. *)
Lemma reordered_metadata_is_reported_modified :
  language sample_editable_first = language sample_editable_last
  /\ same_properties
       (without_marked (transientMetadata (transientOptions sample_doc))
          (metadata_or_empty sample_editable_first))
       (without_marked (transientMetadata (transientOptions sample_doc))
          (metadata_or_empty sample_editable_last))
  /\ checkMetadataIfModified (collab := sample_collaborators)
       (new_SideBySideDiffElementViewModel (collab := sample_collaborators)
          sample_doc sample_editable_first sample_editable_last unchanged)
     = true.
Proof.
  split; [reflexivity | split].
  - apply perm_swap.
  - vm_compute. reflexivity.
Qed.

(** A spread of filtered metadata with an array index as key: the index
    is enumerated before [language]. *)
Example spread_enumerates_array_indices_first :
  Obj.spread [("language", JString "python")]
    [("9", JNull); ("10", JNull); ("editable", JBoolean true)]
  = [("9", JNull); ("10", JNull); ("language", JString "python");
     ("editable", JBoolean true)].
Proof. reflexivity. Qed.

(** An insert element with both cells is an element around the modified
    cell. *)
Example insert_element_uses_the_modified_cell :
  match
    new_SingleSideDiffElementViewModel sample_doc (Some sample_original)
      (Some sample_modified) insert
  with
  | Ok this => getRichOutputTotalHeight this = JSNumber.of_Z 60
  | Throw _ => False
  end.
Proof. reflexivity. Qed.
